(** * IBKR-QuantConnect-Strategies: the two rebalancing algorithms

    A shallow embedding of [MSFT/main.py] (class [MSFTBeatBuyHoldV4], one
    instrument, volatility-scaled leverage) and of [Seasonal/main.py] (class
    [SeasonalETFRotationStrategy], momentum-ranked sector rotation), followed
    by the properties their specification states about them.

    Number model.  Python floats are idealised: rounding, infinities and NaN
    are not modelled.  [MSFT/main.py] takes a square root ([np.std],
    [np.sqrt]), so its floats are the real numbers [R]; [Seasonal/main.py]
    only compares floats and divides 1.0 by a list length, so its floats are
    the rationals [Q], and its functions evaluate.

    What is outside the files.  The QuantConnect engine (indicators, the
    portfolio, the clock, the warm-up flag) is an environment record that each
    call reads; [set_holdings] and [liquidate] are the instructions a call
    emits, collected in a list in emission order.  [self.log] only formats
    text and is left out. *)

From Stdlib Require Import List Bool Arith Lia ZArith QArith Reals Lra.
From Stdlib Require Import Permutation Sorted.
Import ListNotations.

Set Implicit Arguments.

(** ** Python and numpy primitives over the reals *)

Module PyReal.
Local Open Scope R_scope.

Definition ltb (a b : R) : bool := if Rlt_dec a b then true else false.
Definition leb (a b : R) : bool := if Rle_dec a b then true else false.
Definition gtb (a b : R) : bool := ltb b a.

(** Truth value of a float: [if x] holds unless [x] is [0.0]. *)
Definition truthy (x : R) : bool :=
  if Req_dec_T x 0 then false else true.

(** The builtins [max(a, b)] and [min(a, b)] keep the first argument unless
    a later one is strictly greater (strictly smaller). *)
Definition py_max (a b : R) : R := if gtb b a then b else a.
Definition py_min (a b : R) : R := if ltb b a then b else a.

Definition sum (l : list R) : R := fold_right Rplus 0 l.

(** [x.mean()]: the sum over the number of elements. *)
Definition np_mean (l : list R) : R := sum l / INR (length l).

(** [np.std(l)] with numpy's defaults ([ddof = 0]), as numpy documents it:
    [sqrt(mean(abs(x - x.mean())**2))]. *)
Definition np_std (l : list R) : R :=
  sqrt (np_mean (map (fun x => Rabs (x - np_mean l) ^ 2) l)).

Definition np_sqrt (x : R) : R := sqrt x.
End PyReal.

(** ** [MSFT/main.py] *)

Module MSFT.
Import PyReal.
Local Open Scope R_scope.

(** [RollingWindow[float](size)]: index 0 is the newest item; [add] on a
    full window drops the oldest one. *)
Record RollingWindow : Type := mkWindow {
  rw_size : nat;
  rw_items : list R
}.

Definition rw_new (size : nat) : RollingWindow := mkWindow size [].

Definition rw_count (w : RollingWindow) : nat := length (rw_items w).

Definition rw_add (x : R) (w : RollingWindow) : RollingWindow :=
  mkWindow (rw_size w) (firstn (rw_size w) (x :: rw_items w)).

(** [w[i]].  QuantConnect raises when [i >= w.count]; every use below sits
    behind a test on [count] that excludes it (lemma [rw_at_in_range]), so
    the default is never read. *)
Definition rw_at (w : RollingWindow) (i : nat) : R := nth i (rw_items w) 0.

(** The attributes [on_data] writes. *)
Record Algo : Type := mkAlgo {
  price_history : RollingWindow;
  return_history : RollingWindow;
  last_price : option R
}.

(** Constants fixed by [initialize]. *)
Definition lookback_12m : nat := 252.
Definition target_vol : R := 0.22.
Definition max_leverage : R := 2.0.
Definition base_leverage : R := 1.25.
Definition strong_trend_leverage : R := 1.6.
Definition vol_floor : R := 0.12.

Definition initialize : Algo :=
  mkAlgo (rw_new (lookback_12m + 1)) (rw_new 25) None.

Record TradeBar : Type := mkBar { close : R }.

(** The slice handed to [on_data], as far as ["MSFT"] goes: no such key
    ([None]), a key with an empty value ([Some None]), or a bar. *)
Definition Slice : Type := option (option TradeBar).

Definition on_data (data : Slice) (self : Algo) : Algo :=
  match data with
  | None | Some None => self
  | Some (Some bar) =>
      let price := close bar in
      if leb price 0 then self
      else
        let rh :=
          match last_price self with
          | Some lp =>
              if truthy lp && gtb lp 0
              then rw_add (price / lp - 1) (return_history self)
              else return_history self
          | None => return_history self
          end in
        mkAlgo (rw_add price (price_history self)) rh (Some price)
  end.

Definition get_12m_momentum (self : Algo) : option R :=
  if (rw_count (price_history self) <=? lookback_12m)%nat then None
  else Some (rw_at (price_history self) 0
             / rw_at (price_history self) lookback_12m - 1).

Definition get_realized_vol (self : Algo) : option R :=
  if (rw_count (return_history self) <? 20)%nat then None
  else
    let returns := map (fun i => rw_at (return_history self) i) (seq 0 20) in
    Some (np_std returns * np_sqrt 252).

Record Indicator : Type := mkIndicator {
  is_ready : bool;
  current_value : R
}.

(** What [rebalance] reads from the engine. *)
Record Env : Type := mkEnv {
  is_warming_up : bool;
  sma_200 : Indicator;
  sma_50 : Indicator;
  rsi_indicator : Indicator;
  holdings_value : R;          (* portfolio["MSFT"].holdings_value *)
  total_portfolio_value : R
}.

Inductive Order : Type :=
| SetHoldings (weight : R).    (* set_holdings("MSFT", weight) *)

(** Lines 103-138 of [rebalance]: the tiers that give [target_position]. *)
Definition target_position
    (momentum realized_vol current_price sma_200_val sma_50_val rsi_val : R)
    : R :=
  let above_sma_200 := gtb current_price sma_200_val in
  let above_sma_50 := gtb current_price sma_50_val in
  let golden_cross := gtb sma_50_val sma_200_val in
  if leb momentum 0 || negb above_sma_200 then 0.0
  else if above_sma_50 && golden_cross then
    let vol_scalar := target_vol / py_max realized_vol vol_floor in
    let position := strong_trend_leverage * vol_scalar in
    let position := py_max 1.0 (py_min max_leverage position) in
    if ltb rsi_val 35 then py_min max_leverage (position * 1.15)
    else if gtb rsi_val 72 then py_max 1.0 (position * 0.92)
    else position
  else
    let vol_scalar := target_vol / py_max realized_vol vol_floor in
    let position := base_leverage * vol_scalar in
    py_max 0.9 (py_min 1.5 position).

(** Line 141. *)
Definition current_weight (env : Env) : R :=
  if gtb (total_portfolio_value env) 0
  then holdings_value env / total_portfolio_value env
  else 0.

(** Lines 143-144. *)
Definition execute (current target : R) : list Order :=
  if gtb (Rabs (current - target)) 0.10 then [SetHoldings target] else [].

(** [rebalance] returns the instructions it emits and the algorithm state
    it leaves. *)
Definition rebalance (env : Env) (self : Algo) : list Order * Algo :=
  if is_warming_up env then ([], self)
  else if negb (is_ready (sma_200 env)) || negb (is_ready (sma_50 env))
  then ([], self)
  else if negb (is_ready (rsi_indicator env)) then ([], self)
  else if (rw_count (price_history self) <=? lookback_12m)%nat
  then ([], self)
  else
    match get_12m_momentum self, get_realized_vol self with
    | Some momentum, Some realized_vol =>
        let current_price := rw_at (price_history self) 0 in
        let sma_200_val := current_value (sma_200 env) in
        let sma_50_val := current_value (sma_50 env) in
        let rsi_val := current_value (rsi_indicator env) in
        let target :=
          target_position momentum realized_vol current_price
                          sma_200_val sma_50_val rsi_val in
        (execute (current_weight env) target, self)
    | _, _ => ([], self)
    end.
End MSFT.

(** ** [Seasonal/main.py] *)

Module Seasonal.
Local Open Scope Q_scope.

(** [a < b] on floats. *)
Definition Qltb (a b : Q) : bool := negb (Qle_bool b a).

(** The tickers [initialize] registers: the keys of [self.symbol_data].
    The [Symbol] that [add_equity] returns for a ticker is identified with
    the ticker, so [self.securities] and [self.portfolio] are indexed by
    tickers as well. *)
Inductive Ticker : Type :=
| XLV | XLI | XLY | XLB      (* aggressive *)
| XLK | XLP | XLU | QQQ      (* defensive *)
| TLT | SHY                  (* safety *)
| SPY.                       (* market *)

Definition ticker_eqb (a b : Ticker) : bool :=
  match a, b with
  | XLV, XLV | XLI, XLI | XLY, XLY | XLB, XLB
  | XLK, XLK | XLP, XLP | XLU, XLU | QQQ, QQQ
  | TLT, TLT | SHY, SHY | SPY, SPY => true
  | _, _ => false
  end.

(** [ticker in l]. *)
Definition mem (t : Ticker) (l : list Ticker) : bool :=
  existsb (ticker_eqb t) l.

Record Indicator : Type := mkIndicator {
  is_ready : bool;
  current_value : Q
}.

(** Class [SymbolData]. *)
Record SymbolData : Type := mkSymbolData {
  momentum : Indicator;
  sma : Indicator;
  roc : Indicator
}.

Record DateTime : Type := mkDateTime {
  year : nat;
  month : nat;
  day : nat
}.

(** What [rebalance] reads from the engine. *)
Record Env : Type := mkEnv {
  is_warming_up : bool;
  time : DateTime;
  symbol_data : Ticker -> SymbolData;
  price : Ticker -> Q;           (* securities[symbol].price *)
  invested : Ticker -> bool      (* portfolio[symbol].invested *)
}.

(** The attributes [rebalance] writes. *)
Record Algo : Type := mkAlgo {
  current_holdings : list Ticker;
  last_rebalance : option DateTime
}.

Inductive Order : Type :=
| Liquidate (symbol : Ticker)
| SetHoldings (symbol : Ticker) (weight : Q).

(** Constants fixed by [initialize]. *)
Definition top_n : nat := 3.
Definition min_etfs : nat := 2.
Definition aggressive_etfs : list Ticker := [XLV; XLI; XLY; XLB].
Definition defensive_etfs : list Ticker := [XLK; XLP; XLU; QQQ].
Definition safety_etfs : list Ticker := [TLT; SHY].
Definition market_etf : Ticker := SPY.

Definition initialize : Algo := mkAlgo [] None.

Definition is_winter_season (env : Env) : bool :=
  let m := month (time env) in
  (11 <=? m)%nat || (m <=? 4)%nat.

Definition is_market_bullish (env : Env) : bool :=
  let spy_data := symbol_data env market_etf in
  if negb (is_ready (sma spy_data)) then true
  else
    let current_price := price env market_etf in
    Qltb (current_value (sma spy_data)) current_price.

(** [scores.sort(key=lambda x: x[1], reverse=True)].  Python's sort is
    stable, also under [reverse=True]; the result is therefore the one list
    that is a rearrangement of the input, descending in the key, with equal
    keys in input order (lemma [stable_sort_unique]).  Insertion from the
    right builds it: an item goes in front of the first item whose key is
    not strictly greater. *)
Fixpoint insert_desc (A : Type) (key : A -> Q) (x : A) (l : list A)
    : list A :=
  match l with
  | [] => [x]
  | y :: ys =>
      if Qltb (key x) (key y) then y :: insert_desc key x ys
      else x :: y :: ys
  end.

Fixpoint sort_desc (A : Type) (key : A -> Q) (l : list A) : list A :=
  match l with
  | [] => []
  | x :: xs => insert_desc key x (sort_desc key xs)
  end.

(** The loop of [get_etf_scores], lines 123-138. *)
Fixpoint collect_scores (env : Env) (etf_list : list Ticker)
    : list (Ticker * Q) :=
  match etf_list with
  | [] => []
  | ticker :: rest =>
      let data := symbol_data env ticker in
      if negb (is_ready (momentum data)) || negb (is_ready (sma data))
      then collect_scores env rest
      else
        let current_price := price env ticker in
        if Qle_bool current_price (current_value (sma data))
        then collect_scores env rest
        else
          let momentum_score :=
            if is_ready (roc data) then current_value (roc data) else 0 in
          (ticker, momentum_score) :: collect_scores env rest
  end.

Definition get_etf_scores (env : Env) (etf_list : list Ticker)
    : list (Ticker * Q) :=
  sort_desc snd (collect_scores env etf_list).

(** Lines 169-180. *)
Definition select_holdings (market_bullish : bool)
    (etf_scores : list (Ticker * Q)) : list Ticker :=
  if market_bullish && (min_etfs <=? length etf_scores)%nat
  then map fst (firstn top_n etf_scores)
  else safety_etfs.

(** Line 183. *)
Definition target_weight (target_holdings : list Ticker) : Q :=
  match target_holdings with
  | [] => 0
  | _ => 1 / inject_Z (Z.of_nat (length target_holdings))
  end.

(** Lines 186-191.  [invested] is read as it stands when the call starts:
    a liquidation of one symbol does not change it for another. *)
Fixpoint liquidations (env : Env) (held target_holdings : list Ticker)
    : list Order :=
  match held with
  | [] => []
  | ticker :: rest =>
      if negb (mem ticker target_holdings) && invested env ticker
      then Liquidate ticker :: liquidations env rest target_holdings
      else liquidations env rest target_holdings
  end.

(** Lines 194-196. *)
Definition set_positions (target_holdings : list Ticker) (weight : Q)
    : list Order :=
  map (fun ticker => SetHoldings ticker weight) target_holdings.

(** [rebalance] returns the instructions it emits and the algorithm state
    it leaves. *)
Definition rebalance (env : Env) (self : Algo) : list Order * Algo :=
  if is_warming_up env then ([], self)
  else
    let is_winter := is_winter_season env in
    let primary_etfs := if is_winter then aggressive_etfs else defensive_etfs in
    let market_bullish := is_market_bullish env in
    let etf_scores := get_etf_scores env primary_etfs in
    let target_holdings := select_holdings market_bullish etf_scores in
    let weight := target_weight target_holdings in
    (liquidations env (current_holdings self) target_holdings
       ++ set_positions target_holdings weight,
     mkAlgo target_holdings (Some (time env))).
End Seasonal.

(** * Properties *)

(** ** Comparisons, [max] and [min] on the reals *)

Module PyRealFacts.
Import PyReal.
Local Open Scope R_scope.

Lemma ltb_true (a b : R) : ltb a b = true <-> a < b.
Proof. unfold ltb. destruct (Rlt_dec a b); split; intros; try easy. Qed.

Lemma ltb_false (a b : R) : ltb a b = false <-> b <= a.
Proof.
  unfold ltb. destruct (Rlt_dec a b); split; intros; try easy; lra.
Qed.

Lemma leb_true (a b : R) : leb a b = true <-> a <= b.
Proof. unfold leb. destruct (Rle_dec a b); split; intros; try easy. Qed.

Lemma leb_false (a b : R) : leb a b = false <-> b < a.
Proof.
  unfold leb. destruct (Rle_dec a b); split; intros; try easy; lra.
Qed.

Lemma gtb_true (a b : R) : gtb a b = true <-> a > b.
Proof. unfold gtb. rewrite ltb_true. lra. Qed.

Lemma gtb_false (a b : R) : gtb a b = false <-> a <= b.
Proof. unfold gtb. apply ltb_false. Qed.

Lemma truthy_true (x : R) : truthy x = true <-> x <> 0.
Proof. unfold truthy. destruct (Req_dec_T x 0); split; intros; easy. Qed.

(** On the reals the builtins are the usual maximum and minimum. *)
Lemma py_max_Rmax (a b : R) : py_max a b = Rmax a b.
Proof.
  unfold py_max, gtb, ltb, Rmax.
  destruct (Rlt_dec a b), (Rle_dec a b); try reflexivity; lra.
Qed.

Lemma py_min_Rmin (a b : R) : py_min a b = Rmin a b.
Proof.
  unfold py_min, ltb, Rmin.
  destruct (Rlt_dec b a), (Rle_dec a b); try reflexivity; lra.
Qed.

Lemma py_max_cases (a b : R) :
  (a < b /\ py_max a b = b) \/ (b <= a /\ py_max a b = a).
Proof.
  unfold py_max, gtb, ltb. destruct (Rlt_dec a b); [left | right]; split;
    try reflexivity; lra.
Qed.

Lemma py_min_cases (a b : R) :
  (b < a /\ py_min a b = b) \/ (a <= b /\ py_min a b = a).
Proof.
  unfold py_min, ltb. destruct (Rlt_dec b a); [left | right]; split;
    try reflexivity; lra.
Qed.

(** A clamp [max(lo, min(hi, x))] with [lo <= hi] lands in [[lo, hi]]. *)
Lemma clamp_range (lo hi x : R) :
  lo <= hi -> lo <= py_max lo (py_min hi x) <= hi.
Proof.
  intros Hlh.
  destruct (py_min_cases hi x) as [[? ->] | [? ->]];
    [ destruct (py_max_cases lo x) as [[? ->] | [? ->]]
    | destruct (py_max_cases lo hi) as [[? ->] | [? ->]] ]; lra.
Qed.

End PyRealFacts.

(** ** [MSFT/main.py]: windows, readiness and the gate of [rebalance] *)

Module MSFTProps.
Import PyReal PyRealFacts MSFT.
Local Open Scope R_scope.

(** *** Rolling windows *)

Lemma rw_count_add (x : R) (w : RollingWindow) :
  rw_count (rw_add x w) = Nat.min (rw_size w) (S (rw_count w)).
Proof. unfold rw_count, rw_add. simpl rw_items. now rewrite length_firstn. Qed.

(** A window never holds more than its capacity. *)
Lemma rw_count_bounded (x : R) (w : RollingWindow) :
  (rw_count (rw_add x w) <= rw_size (rw_add x w))%nat.
Proof. rewrite rw_count_add. simpl. lia. Qed.

(** The newest item of a window with room for one is the item just added. *)
Lemma rw_at_add_0 (x : R) (w : RollingWindow) :
  (0 < rw_size w)%nat -> rw_at (rw_add x w) 0 = x.
Proof.
  unfold rw_at, rw_add. simpl rw_items.
  destruct (rw_size w); [lia | reflexivity].
Qed.

(** Below [count] an index reads a stored item, never the default. *)
Lemma rw_at_in_range (w : RollingWindow) (i : nat) :
  (i < rw_count w)%nat -> nth_error (rw_items w) i = Some (rw_at w i).
Proof. intros H. unfold rw_at. now apply nth_error_nth'. Qed.

(** [[w[i] for i in range(n)]] is the [n] newest items once [n] are stored. *)
Lemma range_items (w : RollingWindow) (n : nat) :
  (n <= rw_count w)%nat ->
  map (fun i => rw_at w i) (seq 0 n) = firstn n (rw_items w).
Proof.
  unfold rw_at, rw_count. generalize (rw_items w) as l.
  induction n as [|n IH]; intros l Hn; [reflexivity|].
  destruct l as [|a l]; [simpl in Hn; lia|].
  simpl. f_equal. rewrite <- seq_shift, map_map.
  apply IH. simpl in Hn. lia.
Qed.

(** *** Readiness of the two derived signals *)

Lemma get_12m_momentum_None (self : Algo) :
  get_12m_momentum self = None <->
  (rw_count (price_history self) <= lookback_12m)%nat.
Proof.
  unfold get_12m_momentum.
  destruct (Nat.leb_spec (rw_count (price_history self)) lookback_12m);
    split; intros; try easy; lia.
Qed.

Lemma get_realized_vol_None (self : Algo) :
  get_realized_vol self = None <-> (rw_count (return_history self) < 20)%nat.
Proof.
  unfold get_realized_vol.
  destruct (Nat.ltb_spec (rw_count (return_history self)) 20);
    split; intros; try easy; lia.
Qed.

(** *** The gate *)

(** Every test [rebalance] makes before it computes a target, as one flag. *)
Definition gate_open (env : Env) (self : Algo) : bool :=
  negb (is_warming_up env)
  && is_ready (sma_200 env) && is_ready (sma_50 env)
  && is_ready (rsi_indicator env)
  && (lookback_12m <? rw_count (price_history self))%nat
  && (20 <=? rw_count (return_history self))%nat.

(** The target [rebalance] computes once the gate is open. *)
Definition decided_target (env : Env) (self : Algo) : option R :=
  match get_12m_momentum self, get_realized_vol self with
  | Some momentum, Some realized_vol =>
      Some (target_position momentum realized_vol
              (rw_at (price_history self) 0)
              (current_value (sma_200 env)) (current_value (sma_50 env))
              (current_value (rsi_indicator env)))
  | _, _ => None
  end.

Lemma rebalance_gate_closed (env : Env) (self : Algo) :
  gate_open env self = false -> rebalance env self = ([], self).
Proof.
  unfold gate_open, rebalance. intros H.
  destruct (is_warming_up env); [reflexivity|].
  destruct (is_ready (sma_200 env)); [|reflexivity].
  destruct (is_ready (sma_50 env)); [|reflexivity].
  destruct (is_ready (rsi_indicator env)); [|reflexivity].
  cbn [negb andb orb] in *.
  destruct (Nat.leb_spec (rw_count (price_history self)) lookback_12m) as [Hc|Hc];
    [reflexivity|].
  apply Nat.ltb_lt in Hc. rewrite Hc in H. cbn [andb] in H.
  destruct (get_12m_momentum self); [|reflexivity].
  destruct (get_realized_vol self) eqn:Hv; [|reflexivity].
  exfalso. apply Nat.leb_gt in H.
  apply get_realized_vol_None in H. congruence.
Qed.

Lemma gate_open_ready (env : Env) (self : Algo) :
  gate_open env self = true ->
  exists momentum realized_vol,
    get_12m_momentum self = Some momentum /\
    get_realized_vol self = Some realized_vol.
Proof.
  unfold gate_open. intros H.
  repeat (apply andb_prop in H; destruct H as [H ?]).
  destruct (get_12m_momentum self) as [m|] eqn:Hm.
  - destruct (get_realized_vol self) as [v|] eqn:Hv; [now exists m, v|].
    apply get_realized_vol_None in Hv.
    match goal with H : (20 <=? _)%nat = true |- _ => apply Nat.leb_le in H end.
    lia.
  - apply get_12m_momentum_None in Hm.
    match goal with H : (_ <? _)%nat = true |- _ => apply Nat.ltb_lt in H end.
    lia.
Qed.

Lemma rebalance_gate_open (env : Env) (self : Algo) :
  gate_open env self = true ->
  exists target,
    decided_target env self = Some target /\
    rebalance env self = (execute (current_weight env) target, self).
Proof.
  intros H. destruct (gate_open_ready _ _ H) as (m & v & Hm & Hv).
  unfold decided_target, rebalance. rewrite Hm, Hv.
  eexists; split; [reflexivity|].
  unfold gate_open in H.
  repeat (apply andb_prop in H; destruct H as [H ?]).
  destruct (is_warming_up env); [discriminate|].
  destruct (is_ready (sma_200 env)); [|discriminate].
  destruct (is_ready (sma_50 env)); [|discriminate].
  destruct (is_ready (rsi_indicator env)); [|discriminate].
  cbn [negb andb orb].
  match goal with H : (_ <? _)%nat = true |- _ => apply Nat.ltb_lt in H end.
  destruct (Nat.leb_spec (rw_count (price_history self)) lookback_12m);
    [lia | reflexivity].
Qed.

(** [rebalance] never writes an attribute. *)
Lemma rebalance_state (env : Env) (self : Algo) :
  snd (rebalance env self) = self.
Proof.
  destruct (gate_open env self) eqn:H.
  - destruct (rebalance_gate_open _ _ H) as (t & _ & ->). reflexivity.
  - now rewrite rebalance_gate_closed.
Qed.

Lemma execute_cases (current target : R) :
  (Rabs (current - target) > 0.10 /\
   execute current target = [SetHoldings target]) \/
  (Rabs (current - target) <= 0.10 /\ execute current target = []).
Proof.
  unfold execute.
  destruct (gtb (Rabs (current - target)) 0.10) eqn:H.
  - left. split; [now apply gtb_true | reflexivity].
  - right. split; [now apply gtb_false | reflexivity].
Qed.

(** *** The position sizer *)

Lemma strong_tier_range (x rsi_val : R) :
  let position := py_max 1.0 (py_min max_leverage x) in
  1.0 <= (if ltb rsi_val 35 then py_min max_leverage (position * 1.15)
          else if gtb rsi_val 72 then py_max 1.0 (position * 0.92)
          else position) <= max_leverage.
Proof.
  intros position.
  assert (Hp : 1.0 <= position <= max_leverage)
    by (apply clamp_range; unfold max_leverage; lra).
  unfold max_leverage in *.
  destruct (ltb rsi_val 35); [|destruct (gtb rsi_val 72)]; [| |exact Hp].
  - destruct (py_min_cases 2.0 (position * 1.15)) as [[? ->] | [? ->]]; lra.
  - destruct (py_max_cases 1.0 (position * 0.92)) as [[? ->] | [? ->]]; lra.
Qed.

(** C1.  Whatever the momentum, the realised volatility, the price, the two
    averages and the RSI, the target position lies in [[0, max_leverage]]
    with [max_leverage = 2.0]; it is exactly 0 in the exit tier (momentum
    [<= 0] or price not above the 200-day average), lies in [[1.0, 2.0]] in
    the strong-trend tier, RSI adjustment included, and in [[0.9, 1.5]] in
    the moderate tier. *)
Theorem C1_target_position_range
    (momentum realized_vol current_price sma_200_val sma_50_val rsi_val : R) :
  let target :=
    target_position momentum realized_vol current_price
                    sma_200_val sma_50_val rsi_val in
  max_leverage = 2.0
  /\ 0 <= target <= max_leverage
  /\ (momentum <= 0 \/ ~ current_price > sma_200_val -> target = 0)
  /\ (momentum > 0 -> current_price > sma_200_val ->
      current_price > sma_50_val /\ sma_50_val > sma_200_val ->
      1.0 <= target <= 2.0)
  /\ (momentum > 0 -> current_price > sma_200_val ->
      ~ (current_price > sma_50_val /\ sma_50_val > sma_200_val) ->
      0.9 <= target <= 1.5).
Proof.
  intros target.
  pose proof (strong_tier_range
    (strong_trend_leverage * (target_vol / py_max realized_vol vol_floor))
    rsi_val) as Hstrong.
  pose proof (clamp_range (lo := 0.9) (hi := 1.5)
    (base_leverage * (target_vol / py_max realized_vol vol_floor))) as Hmod.
  cbv zeta in Hstrong. unfold max_leverage in Hstrong |- *.
  split; [reflexivity|].
  subst target. unfold target_position.
  destruct (leb momentum 0) eqn:Hm;
    [apply leb_true in Hm | apply leb_false in Hm];
  (destruct (gtb current_price sma_200_val) eqn:H200;
    [apply gtb_true in H200 | apply gtb_false in H200]);
  (destruct (gtb current_price sma_50_val) eqn:H50;
    [apply gtb_true in H50 | apply gtb_false in H50]);
  (destruct (gtb sma_50_val sma_200_val) eqn:Hgc;
    [apply gtb_true in Hgc | apply gtb_false in Hgc]);
  cbn [negb andb orb]; unfold max_leverage in *;
  repeat split; intros; try lra; try tauto.
Qed.

(** The strong-trend rule in the specification's words: [clamp] is the
    mathematical clamp, the leverage is multiplied by the volatility target
    before the division. *)
Definition clamp (x lo hi : R) : R := Rmax lo (Rmin hi x).

Definition spec_strong_target (realized_vol oscillator : R) : R :=
  let position :=
    clamp (strong_trend_leverage * target_vol / Rmax realized_vol vol_floor)
          1.0 max_leverage in
  if Rlt_dec oscillator 35 then Rmin max_leverage (position * 1.15)
  else if Rgt_dec oscillator 72 then Rmax 1.0 (position * 0.92)
  else position.

Lemma strong_tier_selected
    (momentum realized_vol current_price sma_200_val sma_50_val rsi_val : R) :
  momentum > 0 -> current_price > sma_200_val ->
  current_price > sma_50_val -> sma_50_val > sma_200_val ->
  target_position momentum realized_vol current_price
                  sma_200_val sma_50_val rsi_val =
  let position :=
    py_max 1.0 (py_min max_leverage
      (strong_trend_leverage * (target_vol / py_max realized_vol vol_floor))) in
  if ltb rsi_val 35 then py_min max_leverage (position * 1.15)
  else if gtb rsi_val 72 then py_max 1.0 (position * 0.92)
  else position.
Proof.
  intros Hm H200 H50 Hgc. unfold target_position.
  apply leb_false in Hm. apply gtb_true in H200, H50, Hgc.
  now rewrite Hm, H200, H50, Hgc.
Qed.

(** C2.  In the strong-trend tier the target is
    [clamp(strong_trend_leverage * target_vol / max(realized_vol, vol_floor),
    1.0, max_leverage)], times 1.15 and capped again at [max_leverage] when
    the RSI is below 35, times 0.92 and floored again at 1.0 when it is above
    72, unchanged otherwise; with realised volatility 0.10 and RSI 50 (and
    the configured floor 0.12, volatility target 0.22, leverage 1.6) it is
    exactly [max_leverage = 2.0]. *)
Theorem C2_strong_trend_target
    (momentum realized_vol current_price sma_200_val sma_50_val rsi_val : R) :
  momentum > 0 -> current_price > sma_200_val ->
  current_price > sma_50_val -> sma_50_val > sma_200_val ->
  target_position momentum realized_vol current_price
                  sma_200_val sma_50_val rsi_val
    = spec_strong_target realized_vol rsi_val
  /\ (vol_floor = 0.12 /\ target_vol = 0.22 /\ strong_trend_leverage = 1.6
      /\ max_leverage = 2.0)
  /\ (realized_vol = 0.10 -> rsi_val = 50 ->
      target_position momentum realized_vol current_price
                      sma_200_val sma_50_val rsi_val = 2.0).
Proof.
  intros Hm H200 H50 Hgc.
  rewrite (strong_tier_selected realized_vol rsi_val Hm H200 H50 Hgc).
  cbv zeta. split; [|split; [repeat split|]].
  - unfold spec_strong_target, clamp.
    rewrite !py_max_Rmax, !py_min_Rmin.
    replace (strong_trend_leverage * target_vol / Rmax realized_vol vol_floor)
      with (strong_trend_leverage
            * (target_vol / Rmax realized_vol vol_floor))
      by (unfold Rdiv; ring).
    unfold ltb, gtb, ltb.
    destruct (Rlt_dec rsi_val 35); [reflexivity|].
    destruct (Rlt_dec 72 rsi_val), (Rgt_dec rsi_val 72);
      try reflexivity; lra.
  - intros -> ->.
    unfold vol_floor, target_vol, strong_trend_leverage, max_leverage.
    destruct (py_max_cases 0.10 0.12) as [[_ ->] | [? _]]; [|lra].
    replace (ltb 50 35) with false by (symmetry; apply ltb_false; lra).
    replace (gtb 50 72) with false by (symmetry; apply gtb_false; lra).
    destruct (py_min_cases 2.0 (1.6 * (0.22 / 0.12))) as [[? _] | [_ ->]];
      [lra|].
    destruct (py_max_cases 1.0 2.0) as [[_ ->] | [? _]]; [reflexivity | lra].
Qed.

(** Scenario A: momentum 0.30, price 110 above both averages (100 and 90),
    realised volatility 0.10, RSI 50. *)
Lemma C2_strong_trend_target_witness :
  target_position 0.30 0.10 110 90 100 50 = spec_strong_target 0.10 50
  /\ target_position 0.30 0.10 110 90 100 50 = 2.0.
Proof.
  destruct (C2_strong_trend_target (momentum := 0.30) 0.10
              (current_price := 110) (sma_200_val := 90) (sma_50_val := 100)
              50 ltac:(lra) ltac:(lra) ltac:(lra) ltac:(lra))
    as (Hspec & _ & Hval).
  split; [exact Hspec | exact (Hval eq_refl eq_refl)].
Defined.

(** *** Realised volatility *)

(** The two textbook standard deviations of a list: the sum of squared
    deviations from the mean over [n] (population) or over [n - 1]
    (sample). *)
Definition sq_dev_sum (l : list R) : R :=
  sum (map (fun x => (x - np_mean l) ^ 2) l).

Definition population_std (l : list R) : R :=
  sqrt (sq_dev_sum l / INR (length l)).

Definition sample_std (l : list R) : R :=
  sqrt (sq_dev_sum l / (INR (length l) - 1)).

(** The 20 most recent returns. *)
Definition recent_returns (self : Algo) : list R :=
  firstn 20 (rw_items (return_history self)).

Lemma np_std_population (l : list R) : np_std l = population_std l.
Proof.
  unfold np_std, population_std, sq_dev_sum, np_mean at 1.
  rewrite length_map. do 3 f_equal.
  apply map_ext. intros x. apply pow2_abs.
Qed.

Lemma get_realized_vol_ready (self : Algo) :
  (20 <= rw_count (return_history self))%nat ->
  get_realized_vol self
    = Some (population_std (recent_returns self) * sqrt 252).
Proof.
  intros H. unfold get_realized_vol.
  destruct (Nat.ltb_spec (rw_count (return_history self)) 20); [lia|].
  cbv zeta. rewrite range_items by assumption.
  now rewrite np_std_population.
Qed.

(** The sixth claim as the specification words it, with the sample standard
    deviation. *)
Definition realized_vol_is_sample_std : Prop :=
  forall self : Algo,
    ((rw_count (return_history self) < 20)%nat ->
     get_realized_vol self = None)
    /\ ((20 <= rw_count (return_history self))%nat ->
        get_realized_vol self
          = Some (sample_std (recent_returns self) * sqrt 252)).

(** Twenty-one daily closes: twenty at 100, then 102; so one return of 2%
    after nineteen of 0. *)
Definition one_move : Algo :=
  mkAlgo (mkWindow 253 (102 :: repeat 100 20))
         (mkWindow 25 (0.02 :: repeat 0 19))
         (Some 102).

Lemma one_move_sq_dev_sum : sq_dev_sum (recent_returns one_move) = 0.00038.
Proof.
  unfold sq_dev_sum, np_mean, recent_returns, one_move.
  cbn [return_history rw_items firstn repeat map sum fold_right length].
  replace (INR 20) with 20 by (simpl; lra).
  lra.
Qed.

(** C6, as stated, fails: on [one_move] the code returns
    [sqrt 0.000019 * sqrt 252], the sample standard deviation would give
    [sqrt 0.00002 * sqrt 252]. *)
Lemma C6_counterexample : ~ realized_vol_is_sample_std.
Proof.
  intros H. destruct (H one_move) as [_ Hs].
  assert (Hc : (20 <= rw_count (return_history one_move))%nat)
    by (unfold rw_count; simpl; lia).
  specialize (Hs Hc). rewrite (get_realized_vol_ready _ Hc) in Hs.
  injection Hs as Hs.
  assert (H252 : 0 < sqrt 252) by (apply sqrt_lt_R0; lra).
  apply Rmult_eq_reg_r in Hs; [|lra].
  unfold population_std, sample_std in Hs.
  rewrite one_move_sq_dev_sum in Hs.
  replace (INR (length (recent_returns one_move))) with 20 in Hs
    by (unfold recent_returns, one_move; simpl; lra).
  apply sqrt_inj in Hs; lra.
Qed.

(** C6, amended.  [get_realized_vol] returns [None] while fewer than 20
    returns are stored, and otherwise the population standard deviation
    (divisor 20, numpy's default) of the 20 most recent returns, times the
    square root of 252. *)
Theorem C6_realized_vol_population_std (self : Algo) :
  ((rw_count (return_history self) < 20)%nat ->
   get_realized_vol self = None)
  /\ ((20 <= rw_count (return_history self))%nat ->
      get_realized_vol self
        = Some (population_std (recent_returns self) * sqrt 252)
      /\ length (recent_returns self) = 20%nat).
Proof.
  split.
  - apply get_realized_vol_None.
  - intros H. split; [now apply get_realized_vol_ready|].
    unfold recent_returns. rewrite length_firstn.
    unfold rw_count in H. lia.
Qed.

(** *** Ingestion *)

(** What [on_data] does with a bar it keeps. *)
Lemma on_data_valid_bar (bar : TradeBar) (self : Algo) :
  close bar > 0 ->
  on_data (Some (Some bar)) self =
  mkAlgo (rw_add (close bar) (price_history self))
         (match last_price self with
          | Some lp =>
              if truthy lp && gtb lp 0
              then rw_add (close bar / lp - 1) (return_history self)
              else return_history self
          | None => return_history self
          end)
         (Some (close bar)).
Proof.
  intros H. unfold on_data. apply leb_false in H. now rewrite H.
Qed.

Lemma firstn_subset (A : Type) (n : nat) (l : list A) (x : A) :
  In x (firstn n l) -> In x l.
Proof.
  revert l. induction n as [|n IH]; intros [|a l]; simpl; try tauto.
  intros [-> | H]; [now left | right; now apply IH].
Qed.

(** Only positive prices are ever stored, so neither the return nor the
    momentum divides by zero. *)
Definition prices_positive (self : Algo) : Prop :=
  Forall (fun p => 0 < p) (rw_items (price_history self))
  /\ (forall lp, last_price self = Some lp -> 0 < lp).

Lemma prices_positive_initialize : prices_positive initialize.
Proof. split; [constructor | discriminate]. Qed.

Lemma on_data_prices_positive (data : Slice) (self : Algo) :
  prices_positive self -> prices_positive (on_data data self).
Proof.
  intros [Hp Hl]. destruct data as [[bar|]|]; try (split; assumption).
  unfold on_data. destruct (leb (close bar) 0) eqn:Hc; [split; assumption|].
  apply leb_false in Hc. split.
  - cbn [price_history rw_add rw_items].
    apply Forall_forall. intros p Hin. apply firstn_subset in Hin.
    destruct Hin as [<- | Hin]; [lra|].
    rewrite Forall_forall in Hp. now apply Hp.
  - cbn [last_price]. intros lp [= <-]. lra.
Qed.

(** The bars of a run, oldest first, handed to [on_data] one by one. *)
Definition feed (closes : list R) (self : Algo) : Algo :=
  fold_left (fun s p => on_data (Some (Some (mkBar p))) s) closes self.

Lemma on_data_first (p : R) (ph rh : RollingWindow) :
  p > 0 ->
  on_data (Some (Some (mkBar p))) (mkAlgo ph rh None)
    = mkAlgo (rw_add p ph) rh (Some p).
Proof. intros H. now rewrite on_data_valid_bar by exact H. Qed.

Lemma on_data_next (p lp : R) (ph rh : RollingWindow) :
  p > 0 -> lp > 0 ->
  on_data (Some (Some (mkBar p))) (mkAlgo ph rh (Some lp))
    = mkAlgo (rw_add p ph) (rw_add (p / lp - 1) rh) (Some p).
Proof.
  intros H Hl. rewrite on_data_valid_bar by exact H. cbn [last_price close].
  assert (truthy lp = true) as -> by (apply truthy_true; lra).
  assert (gtb lp 0 = true) as -> by (now apply gtb_true).
  reflexivity.
Qed.

(** [one_move] is the state after twenty closes at 100 and one at 102. *)
Lemma one_move_reachable :
  feed (repeat 100 20 ++ [102]) initialize = one_move.
Proof.
  unfold feed, initialize, rw_new. cbn [repeat app fold_left].
  rewrite on_data_first by lra.
  repeat (rewrite on_data_next by lra).
  cbv [rw_add rw_size rw_items lookback_12m Nat.add firstn one_move repeat].
  replace (100 / 100 - 1) with 0 by lra.
  replace (102 / 100 - 1) with 0.02 by lra.
  reflexivity.
Qed.

(** C7.  A slice without the key, with an empty value, or with a close price
    [<= 0] changes nothing: the price window, the return window and the
    stored last price are as they were. *)
Theorem C7_on_data_drops_bad_bar (data : Slice) (self : Algo) :
  data = None \/ data = Some None
  \/ (exists bar, data = Some (Some bar) /\ close bar <= 0) ->
  let self' := on_data data self in
  self' = self
  /\ price_history self' = price_history self
  /\ return_history self' = return_history self
  /\ last_price self' = last_price self.
Proof.
  intros H self'.
  assert (E : self' = self).
  { subst self'. destruct H as [-> | [-> | (bar & -> & Hc)]];
      try reflexivity.
    unfold on_data. apply leb_true in Hc. now rewrite Hc. }
  rewrite E. auto.
Qed.

Lemma C7_on_data_drops_bad_bar_witness :
  on_data (Some (Some (mkBar (-1)))) one_move = one_move
  /\ last_price (on_data (Some (Some (mkBar 0))) one_move) = Some 102.
Proof.
  split.
  - apply (C7_on_data_drops_bad_bar (data := Some (Some (mkBar (-1))))).
    right; right. exists (mkBar (-1)). split; [reflexivity | simpl; lra].
  - apply (C7_on_data_drops_bad_bar (data := Some (Some (mkBar 0)))).
    right; right. exists (mkBar 0). split; [reflexivity | simpl; lra].
Defined.

(** *** Execution *)

Lemma current_weight_cases (env : Env) :
  (total_portfolio_value env > 0 ->
   current_weight env = holdings_value env / total_portfolio_value env)
  /\ (total_portfolio_value env <= 0 -> current_weight env = 0).
Proof.
  unfold current_weight.
  destruct (gtb (total_portfolio_value env) 0) eqn:H;
    [apply gtb_true in H | apply gtb_false in H];
    split; intros; try reflexivity; lra.
Qed.

(** A year of closes at 100 and a last one at 120, 25 stored returns. *)
Definition trending : Algo :=
  mkAlgo (mkWindow 253 (120 :: repeat 100 252))
         (mkWindow 25 (0.2 :: repeat 0 24))
         (Some 120).

(** Warm-up over, the three indicators ready, nothing held of a portfolio
    worth 100000. *)
Definition flat_env : Env :=
  mkEnv false (mkIndicator true 100) (mkIndicator true 110)
        (mkIndicator true 50) 0 100000.

(** C8.  On a rebalance that passes the gate, the current weight is
    [holdings_value / total_portfolio_value] when the total is positive and
    0 otherwise, and [set_holdings] is emitted, with the target, exactly
    when the current weight is more than 0.10 away from the target;
    otherwise nothing is emitted. *)
Theorem C8_hysteresis_band (env : Env) (self : Algo) :
  gate_open env self = true ->
  exists target,
    decided_target env self = Some target
    /\ (total_portfolio_value env > 0 ->
        current_weight env = holdings_value env / total_portfolio_value env)
    /\ (total_portfolio_value env <= 0 -> current_weight env = 0)
    /\ (Rabs (current_weight env - target) > 0.10 ->
        fst (rebalance env self) = [SetHoldings target])
    /\ (Rabs (current_weight env - target) <= 0.10 ->
        fst (rebalance env self) = [])
    /\ (forall weight, In (SetHoldings weight) (fst (rebalance env self)) <->
        weight = target /\ Rabs (current_weight env - target) > 0.10).
Proof.
  intros H. destruct (rebalance_gate_open _ _ H) as (target & Ht & ->).
  exists target. split; [exact Ht|].
  destruct (current_weight_cases env) as [Hpos Hneg].
  split; [exact Hpos|]. split; [exact Hneg|]. cbn [fst].
  destruct (execute_cases (current_weight env) target) as [[Hb ->] | [Hb ->]].
  - split; [reflexivity|]. split; [lra|].
    intros w. cbn [In]. split.
    + intros [[= <-] | []]. now split.
    + intros [-> _]. now left.
  - split; [lra|]. split; [reflexivity|].
    intros w. cbn [In]. split; [tauto | lra].
Qed.

Lemma C8_hysteresis_band_witness :
  gate_open flat_env trending = true
  /\ exists target,
       decided_target flat_env trending = Some target
       /\ current_weight flat_env = 0 / 100000.
Proof.
  split; [reflexivity|].
  destruct (C8_hysteresis_band flat_env trending eq_refl)
    as (target & Ht & Hpos & _).
  exists target. split; [exact Ht|].
  apply Hpos. simpl. lra.
Defined.

(** Inside the band nothing is emitted. *)
Lemma rebalance_in_band (env : Env) (self : Algo) :
  (forall target, decided_target env self = Some target ->
                  Rabs (current_weight env - target) <= 0.10) ->
  fst (rebalance env self) = [].
Proof.
  intros Hband. destruct (gate_open env self) eqn:H.
  - destruct (rebalance_gate_open _ _ H) as (target & Ht & ->). cbn [fst].
    specialize (Hband _ Ht).
    destruct (execute_cases (current_weight env) target) as [[? _] | [_ ->]];
      [lra | reflexivity].
  - now rewrite rebalance_gate_closed.
Qed.

(** The engine carrying out [set_holdings] exactly: the position is worth
    [weight] times the portfolio, whose total value stays. *)
Definition filled (env : Env) (orders : list Order) : Env :=
  match orders with
  | SetHoldings weight :: _ =>
      mkEnv (is_warming_up env) (sma_200 env) (sma_50 env)
            (rsi_indicator env)
            (weight * total_portfolio_value env) (total_portfolio_value env)
  | [] => env
  end.

Lemma decided_target_filled (env : Env) (self : Algo) (orders : list Order) :
  decided_target (filled env orders) self = decided_target env self.
Proof. destruct orders as [|[w] ?]; reflexivity. Qed.

(** After an exact fill a second call on the same indicators emits
    nothing. *)
Lemma second_call_after_fill (env : Env) (self : Algo) :
  total_portfolio_value env > 0 ->
  fst (rebalance (filled env (fst (rebalance env self))) self) = [].
Proof.
  intros Hpos. destruct (gate_open env self) eqn:H.
  - destruct (rebalance_gate_open _ _ H) as (target & Ht & E).
    rewrite E. cbn [fst].
    destruct (execute_cases (current_weight env) target) as [[Hb ->] | [Hb ->]].
    + apply rebalance_in_band. intros t' Ht'.
      rewrite (decided_target_filled env self [SetHoldings target]) in Ht'.
      assert (t' = target) by congruence. subst t'.
      destruct (current_weight_cases (filled env [SetHoldings target]))
        as [-> _]; cbn [filled total_portfolio_value holdings_value];
        [ | exact Hpos].
      replace (target * total_portfolio_value env / total_portfolio_value env
               - target) with 0 by (field; lra).
      rewrite Rabs_R0. lra.
    + cbn [filled]. rewrite E. cbn [fst].
      destruct (execute_cases (current_weight env) target) as [[? _] | [_ ->]];
        [lra | reflexivity].
  - rewrite (rebalance_gate_closed _ _ H). cbn [fst filled].
    now rewrite rebalance_gate_closed.
Qed.

(** The gate is closed exactly when one of the tests of [rebalance] fails. *)
Lemma gate_open_false (env : Env) (self : Algo) :
  gate_open env self = false <->
  is_warming_up env = true \/ is_ready (sma_200 env) = false
  \/ is_ready (sma_50 env) = false \/ is_ready (rsi_indicator env) = false
  \/ get_12m_momentum self = None \/ get_realized_vol self = None.
Proof.
  rewrite get_12m_momentum_None, get_realized_vol_None. unfold gate_open.
  destruct (is_warming_up env), (is_ready (sma_200 env)),
    (is_ready (sma_50 env)), (is_ready (rsi_indicator env));
    cbn [negb andb]; try tauto;
  destruct (Nat.ltb_spec lookback_12m (rw_count (price_history self)));
  destruct (Nat.leb_spec 20 (rw_count (return_history self)));
  cbn [andb]; split; intros; try easy; try tauto;
  repeat match goal with H : _ \/ _ |- _ => destruct H end;
  try discriminate; lia.
Qed.

End MSFTProps.

(** ** [Seasonal/main.py]: the stable descending sort *)

Module SeasonalProps.
Import Seasonal.
Local Open Scope Q_scope.

Lemma Qltb_true (a b : Q) : Qltb a b = true <-> a < b.
Proof.
  unfold Qltb. rewrite negb_true_iff, <- not_true_iff_false, Qle_bool_iff.
  split; [apply Qnot_le_lt | apply Qlt_not_le].
Qed.

Lemma Qltb_false (a b : Q) : Qltb a b = false <-> b <= a.
Proof. unfold Qltb. rewrite negb_false_iff. apply Qle_bool_iff. Qed.

Section StableSort.
Variable A : Type.
Variable key : A -> Q.

(** [x] may stand before [y] in a list that descends in the key. *)
Definition desc (x y : A) : Prop := key y <= key x.

Definition has_key (k : Q) (x : A) : bool := Qeq_bool (key x) k.

(** [l'] keeps the items of every key in the order they have in [l]. *)
Definition stable (l l' : list A) : Prop :=
  forall k, filter (has_key k) l' = filter (has_key k) l.

Lemma has_key_self (x : A) : has_key (key x) x = true.
Proof. apply Qeq_bool_iff. reflexivity. Qed.

Lemma insert_desc_perm (x : A) (l : list A) :
  Permutation (x :: l) (insert_desc key x l).
Proof.
  induction l as [|y ys IH]; simpl; [reflexivity|].
  destruct (Qltb (key x) (key y)); [|reflexivity].
  rewrite perm_swap. now constructor.
Qed.

Lemma sort_desc_perm (l : list A) : Permutation l (sort_desc key l).
Proof.
  induction l as [|x xs IH]; simpl; [constructor|].
  rewrite <- insert_desc_perm. now constructor.
Qed.

Lemma sort_desc_length (l : list A) : length (sort_desc key l) = length l.
Proof. symmetry. apply Permutation_length, sort_desc_perm. Qed.

Lemma insert_desc_sorted (x : A) (l : list A) :
  StronglySorted desc l -> StronglySorted desc (insert_desc key x l).
Proof.
  induction 1 as [|y ys Hs IH Hall]; simpl.
  - repeat constructor.
  - destruct (Qltb (key x) (key y)) eqn:Hc.
    + apply Qltb_true in Hc. constructor; [exact IH|].
      eapply Permutation_Forall; [apply insert_desc_perm|].
      constructor; [apply Qlt_le_weak, Hc | exact Hall].
    + apply Qltb_false in Hc. constructor; [now constructor|].
      constructor; [exact Hc|].
      eapply Forall_impl; [|exact Hall].
      intros z Hz. unfold desc in *. now apply Qle_trans with (key y).
Qed.

Lemma sort_desc_sorted (l : list A) : StronglySorted desc (sort_desc key l).
Proof.
  induction l as [|x xs IH]; simpl; [constructor|].
  now apply insert_desc_sorted.
Qed.

Lemma insert_desc_filter (k : Q) (x : A) (l : list A) :
  filter (has_key k) (insert_desc key x l) = filter (has_key k) (x :: l).
Proof.
  induction l as [|y ys IH]; [reflexivity|].
  cbn [insert_desc]. destruct (Qltb (key x) (key y)) eqn:Hc; [|reflexivity].
  apply Qltb_true in Hc. cbn [filter] in *. rewrite IH.
  destruct (has_key k x) eqn:Hx, (has_key k y) eqn:Hy; try reflexivity.
  exfalso. unfold has_key in *. apply Qeq_bool_iff in Hx, Hy.
  rewrite Hx, Hy in Hc. now apply Qlt_irrefl in Hc.
Qed.

Lemma sort_desc_stable (l : list A) : stable l (sort_desc key l).
Proof.
  intros k. induction l as [|x xs IH]; [reflexivity|].
  cbn [sort_desc]. rewrite insert_desc_filter. cbn [filter]. now rewrite IH.
Qed.

Lemma filter_head_In (k : Q) (x : A) (l r : list A) :
  filter (has_key k) l = x :: r -> In x l.
Proof.
  intros H. assert (Hin : In x (filter (has_key k) l))
    by (rewrite H; now left).
  now apply filter_In in Hin.
Qed.

(** Two descending lists with the same items of every key, in the same
    order, are the same list. *)
Lemma sorted_stable_eq (l1 l2 : list A) :
  StronglySorted desc l1 -> StronglySorted desc l2 ->
  (forall k, filter (has_key k) l1 = filter (has_key k) l2) ->
  l1 = l2.
Proof.
  intros H1. revert l2.
  induction H1 as [|a l1 Hs1 IH Ha]; intros l2 H2 Hf.
  - destruct l2 as [|b l2]; [reflexivity|].
    specialize (Hf (key b)). cbn [filter] in Hf.
    rewrite has_key_self in Hf. discriminate.
  - destruct H2 as [|b l2 Hs2 Hb].
    + specialize (Hf (key a)). cbn [filter] in Hf.
      rewrite has_key_self in Hf. discriminate.
    + destruct (has_key (key a) b) eqn:Hab.
      * pose proof (Hf (key a)) as Hk. cbn [filter] in Hk.
        rewrite has_key_self, Hab in Hk. injection Hk as -> _.
        f_equal. apply IH; [exact Hs2|].
        intros k. specialize (Hf k). cbn [filter] in Hf.
        destruct (has_key k b); [now injection Hf | exact Hf].
      * exfalso.
        assert (Hba : has_key (key b) a = false).
        { unfold has_key in *. apply not_true_iff_false. intros E.
          apply not_true_iff_false in Hab. apply Hab.
          apply Qeq_bool_iff. apply Qeq_bool_iff in E. now symmetry. }
        pose proof (Hf (key a)) as Hk. cbn [filter] in Hk.
        rewrite has_key_self, Hab in Hk. symmetry in Hk.
        apply filter_head_In in Hk.
        pose proof (Hf (key b)) as Hk'. cbn [filter] in Hk'.
        rewrite has_key_self, Hba in Hk'.
        apply filter_head_In in Hk'.
        rewrite Forall_forall in Ha, Hb.
        specialize (Ha _ Hk'). specialize (Hb _ Hk). unfold desc in Ha, Hb.
        apply not_true_iff_false in Hab. apply Hab.
        apply Qeq_bool_iff. now apply Qle_antisym.
Qed.

(** So [sort_desc] is what any stable descending sort returns. *)
Lemma stable_sort_unique (l l' : list A) :
  StronglySorted desc l' -> stable l l' -> l' = sort_desc key l.
Proof.
  intros Hs Hst. apply sorted_stable_eq; [exact Hs | apply sort_desc_sorted|].
  intros k. rewrite (Hst k). symmetry. apply sort_desc_stable.
Qed.

End StableSort.

(** ** [Seasonal/main.py]: scoring, selection and the instructions *)

(** The two filters of [get_etf_scores]: both indicators ready, and the
    price strictly above the average. *)
Definition passes (env : Env) (ticker : Ticker) : bool :=
  let data := symbol_data env ticker in
  is_ready (momentum data) && is_ready (sma data)
  && Qltb (current_value (sma data)) (price env ticker).

(** The score of a candidate that passes. *)
Definition score (env : Env) (ticker : Ticker) : Q :=
  let data := symbol_data env ticker in
  if is_ready (roc data) then current_value (roc data) else 0.

Definition scored (env : Env) (ticker : Ticker) : Ticker * Q :=
  (ticker, score env ticker).

(** The seasonal group and the selection [rebalance] works with. *)
Definition primary_etfs (env : Env) : list Ticker :=
  if is_winter_season env then aggressive_etfs else defensive_etfs.

Definition target_selection (env : Env) : list Ticker :=
  select_holdings (is_market_bullish env)
                  (get_etf_scores env (primary_etfs env)).

Lemma collect_scores_filter (env : Env) (etf_list : list Ticker) :
  collect_scores env etf_list
    = map (scored env) (filter (passes env) etf_list).
Proof.
  induction etf_list as [|t rest IH]; [reflexivity|].
  cbn [collect_scores filter]. unfold passes at 1. cbv zeta.
  destruct (is_ready (momentum (symbol_data env t)));
    [|cbn [negb orb andb]; exact IH].
  destruct (is_ready (sma (symbol_data env t)));
    [|cbn [negb orb andb]; exact IH].
  cbn [negb orb andb]. unfold Qltb.
  destruct (Qle_bool (price env t) (current_value (sma (symbol_data env t))));
    cbn [negb]; [exact IH|].
  cbn [map]. now rewrite IH.
Qed.

Lemma get_etf_scores_length (env : Env) (etf_list : list Ticker) :
  length (get_etf_scores env etf_list)
    = length (filter (passes env) etf_list).
Proof.
  unfold get_etf_scores.
  now rewrite sort_desc_length, collect_scores_filter, length_map.
Qed.

Lemma ticker_eqb_eq (a b : Ticker) : ticker_eqb a b = true <-> a = b.
Proof. destruct a, b; simpl; split; intros; congruence. Qed.

Lemma mem_In (t : Ticker) (l : list Ticker) : mem t l = true <-> In t l.
Proof.
  unfold mem. rewrite existsb_exists. split.
  - intros (x & Hin & E). apply ticker_eqb_eq in E. now subst.
  - intros H. exists t. split; [exact H | now apply ticker_eqb_eq].
Qed.

Lemma rebalance_after_warm_up (env : Env) (self : Algo) :
  is_warming_up env = false ->
  rebalance env self =
  (liquidations env (current_holdings self) (target_selection env)
     ++ set_positions (target_selection env)
                      (target_weight (target_selection env)),
   mkAlgo (target_selection env) (Some (time env))).
Proof. intros H. unfold rebalance. now rewrite H. Qed.

Lemma rebalance_warming_up (env : Env) (self : Algo) :
  is_warming_up env = true -> rebalance env self = ([], self).
Proof. intros H. unfold rebalance. now rewrite H. Qed.

Lemma liquidations_In (env : Env) (held target : list Ticker) (o : Order) :
  In o (liquidations env held target) <->
  exists t, o = Liquidate t /\ In t held /\ ~ In t target
            /\ invested env t = true.
Proof.
  induction held as [|h rest IH]; cbn [liquidations].
  - split; [intros [] | intros (t & _ & [] & _)].
  - destruct (mem h target) eqn:Hm; cbn [negb andb].
    + rewrite IH. apply mem_In in Hm. split.
      * intros (t & ? & ? & ? & ?). exists t. cbn [In]. tauto.
      * intros (t & ? & [-> | ?] & ? & ?); [tauto | exists t; tauto].
    + assert (Hn : ~ In h target)
        by (rewrite <- mem_In; congruence).
      destruct (invested env h) eqn:Hi; cbn [In]; rewrite IH; split.
      * intros [<- | (t & ? & ? & ? & ?)];
          [exists h; tauto | exists t; tauto].
      * intros (t & ? & [-> | ?] & ? & ?);
          [left; congruence | right; exists t; tauto].
      * intros (t & ? & ? & ? & ?). exists t. tauto.
      * intros (t & ? & [-> | ?] & ? & ?); [congruence | exists t; tauto].
Qed.

Lemma set_positions_In (target : list Ticker) (weight : Q) (o : Order) :
  In o (set_positions target weight) <->
  exists t, o = SetHoldings t weight /\ In t target.
Proof.
  unfold set_positions. rewrite in_map_iff. split.
  - intros (t & <- & H). now exists t.
  - intros (t & -> & H). now exists t.
Qed.

(** The [set_holdings] instructions among the emitted ones, in order. *)
Definition set_weight_orders (orders : list Order) : list Order :=
  filter (fun o => match o with SetHoldings _ _ => true | _ => false end)
         orders.

Definition order_symbol (o : Order) : Ticker :=
  match o with Liquidate t => t | SetHoldings t _ => t end.

Lemma set_weight_orders_liquidations (env : Env) (held target : list Ticker) :
  set_weight_orders (liquidations env held target) = [].
Proof.
  induction held as [|h rest IH]; [reflexivity|]. cbn [liquidations].
  destruct (negb (mem h target) && invested env h); exact IH.
Qed.

Lemma set_weight_orders_set_positions (target : list Ticker) (weight : Q) :
  set_weight_orders (set_positions target weight)
    = set_positions target weight.
Proof.
  induction target as [|t rest IH]; [reflexivity|].
  unfold set_weight_orders, set_positions in *. cbn [map filter].
  now rewrite IH.
Qed.

Lemma set_weight_orders_rebalance (env : Env) (self : Algo) :
  is_warming_up env = false ->
  set_weight_orders (fst (rebalance env self))
    = set_positions (target_selection env)
                    (target_weight (target_selection env)).
Proof.
  intros H. rewrite rebalance_after_warm_up by exact H. cbn [fst].
  unfold set_weight_orders. rewrite filter_app.
  fold (set_weight_orders
          (liquidations env (current_holdings self) (target_selection env))).
  rewrite set_weight_orders_liquidations.
  apply set_weight_orders_set_positions.
Qed.

(** When the fallback applies. *)
Lemma target_selection_safety (env : Env) :
  is_market_bullish env = false
  \/ (length (filter (passes env) (primary_etfs env)) < min_etfs)%nat ->
  target_selection env = safety_etfs.
Proof.
  intros H. unfold target_selection, select_holdings.
  rewrite get_etf_scores_length.
  destruct H as [-> | H]; [reflexivity|].
  apply Nat.leb_gt in H. rewrite H. now rewrite andb_false_r.
Qed.

Lemma target_selection_top (env : Env) :
  is_market_bullish env = true ->
  (min_etfs <= length (filter (passes env) (primary_etfs env)))%nat ->
  target_selection env
    = map fst (firstn top_n (get_etf_scores env (primary_etfs env))).
Proof.
  intros Hb H. unfold target_selection, select_holdings.
  rewrite get_etf_scores_length, Hb.
  apply Nat.leb_le in H. now rewrite H.
Qed.

Lemma is_market_bullish_cases (env : Env) :
  (is_ready (sma (symbol_data env market_etf)) = true ->
   (is_market_bullish env = true <->
    current_value (sma (symbol_data env market_etf)) < price env market_etf))
  /\ (is_ready (sma (symbol_data env market_etf)) = false ->
      is_market_bullish env = true).
Proof.
  unfold is_market_bullish. cbv zeta.
  destruct (is_ready (sma (symbol_data env market_etf))); cbn [negb];
    split; intros; try discriminate; try reflexivity.
  apply Qltb_true.
Qed.

(** January, warm-up over, every indicator ready; each sector fund trades
    at 101 over an average of 100, and [benchmark] is the price of SPY over
    its average of 100.  XLK is still in the portfolio. *)
Definition january (benchmark : Q) : Env :=
  mkEnv false (mkDateTime 2010 1 4)
        (fun t =>
           mkSymbolData (mkIndicator true 1) (mkIndicator true 100)
             (mkIndicator true
                match t with
                | XLV | XLY => 0.05
                | XLI | XLB => 0.07
                | _ => 0
                end))
        (fun t => match t with SPY => benchmark | _ => 101 end)
        (fun t => match t with XLK => true | _ => false end).

(** C4.  After warm-up, when the market is not bullish or fewer than
    [min_etfs = 2] candidates of the seasonal group are ready and above their
    average, the selection is the whole safety set, whatever the scores; the
    market is bullish exactly when the price of the benchmark is above its
    average, if that average is ready, and bullish when it is not ready. *)
Theorem C4_safety_fallback (env : Env) (self : Algo) :
  is_warming_up env = false ->
  min_etfs = 2%nat
  /\ (is_market_bullish env = false
      \/ (length (filter (passes env) (primary_etfs env)) < min_etfs)%nat ->
      current_holdings (snd (rebalance env self)) = safety_etfs
      /\ set_weight_orders (fst (rebalance env self))
         = [SetHoldings TLT (1 # 2); SetHoldings SHY (1 # 2)])
  /\ (is_ready (sma (symbol_data env market_etf)) = true ->
      (is_market_bullish env = true <->
       current_value (sma (symbol_data env market_etf))
         < price env market_etf))
  /\ (is_ready (sma (symbol_data env market_etf)) = false ->
      is_market_bullish env = true).
Proof.
  intros Hw. split; [reflexivity|]. split; [|apply is_market_bullish_cases].
  intros H. apply target_selection_safety in H.
  rewrite set_weight_orders_rebalance by exact Hw.
  rewrite rebalance_after_warm_up by exact Hw. cbn [snd current_holdings].
  rewrite H. split; reflexivity.
Qed.

(** Scenario D: four candidates pass, the benchmark is at 99 under its
    average of 100. *)
Lemma C4_safety_fallback_witness :
  is_warming_up (january 99) = false
  /\ length (filter (passes (january 99)) (primary_etfs (january 99))) = 4%nat
  /\ current_holdings (snd (rebalance (january 99) (mkAlgo [XLK] None)))
     = [TLT; SHY].
Proof.
  split; [reflexivity|]. split; [reflexivity|].
  destruct (C4_safety_fallback (january 99) (mkAlgo [XLK] None) eq_refl)
    as (_ & Hsafe & _).
  apply Hsafe. left. reflexivity.
Defined.

(** *** What the instructions do to the portfolio *)

(** The engine carrying out the instructions exactly: the weight of each
    symbol, instruction after instruction. *)
Definition apply_order (weights : Ticker -> Q) (o : Order) : Ticker -> Q :=
  fun t =>
    match o with
    | Liquidate s => if ticker_eqb t s then 0 else weights t
    | SetHoldings s w => if ticker_eqb t s then w else weights t
    end.

Definition apply_orders (orders : list Order) (weights : Ticker -> Q)
    : Ticker -> Q :=
  fold_left apply_order orders weights.

Lemma apply_set_positions (sel : list Ticker) (w : Q) (weights : Ticker -> Q)
    (t : Ticker) :
  apply_orders (set_positions sel w) weights t
    = if mem t sel then w else weights t.
Proof.
  unfold apply_orders. revert weights.
  induction sel as [|s rest IH]; intros weights; [reflexivity|].
  cbn [set_positions map fold_left]. fold (set_positions rest w).
  rewrite IH. unfold mem. cbn [existsb apply_order].
  fold (mem t rest). destruct (mem t rest); [now rewrite orb_true_r|].
  now rewrite orb_false_r.
Qed.

Lemma apply_liquidations (env : Env) (held target : list Ticker)
    (weights : Ticker -> Q) (t : Ticker) :
  apply_orders (liquidations env held target) weights t
    = if mem t held && (negb (mem t target) && invested env t)
      then 0 else weights t.
Proof.
  unfold apply_orders. revert weights.
  induction held as [|h rest IH]; intros weights; [reflexivity|].
  cbn [liquidations]. unfold mem at 2. cbn [existsb]. fold (mem t rest).
  destruct (ticker_eqb t h) eqn:E.
  - apply ticker_eqb_eq in E. subst h. cbn [orb andb].
    destruct (negb (mem t target) && invested env t) eqn:Hl.
    + cbn [fold_left]. rewrite IH. cbn [apply_order].
      assert (ticker_eqb t t = true) as -> by now apply ticker_eqb_eq.
      now destruct (mem t rest).
    + rewrite IH. now rewrite andb_false_r.
  - cbn [orb].
    destruct (negb (mem h target) && invested env h);
      [cbn [fold_left]|]; rewrite IH; cbn [apply_order];
      try rewrite E; reflexivity.
Qed.

(** After a call past warm-up, carried out exactly: a selected symbol has
    the common weight; any other symbol has weight 0, provided every symbol
    that had a weight before was marked invested and was in
    [current_holdings]. *)
Lemma rebalance_weights (env : Env) (self : Algo) (weights : Ticker -> Q)
    (t : Ticker) :
  is_warming_up env = false ->
  let after := apply_orders (fst (rebalance env self)) weights in
  (In t (target_selection env) ->
   after t = target_weight (target_selection env))
  /\ ((~ weights t == 0 ->
       invested env t = true /\ In t (current_holdings self)) ->
      ~ In t (target_selection env) -> after t == 0).
Proof.
  intros Hw after. subst after.
  rewrite rebalance_after_warm_up by exact Hw. cbn [fst].
  unfold apply_orders. rewrite fold_left_app.
  fold (apply_orders (liquidations env (current_holdings self)
                                   (target_selection env)) weights).
  match goal with |- context [fold_left apply_order ?l ?f] =>
    change (fold_left apply_order l f) with (apply_orders l f) end.
  rewrite apply_set_positions, apply_liquidations.
  split.
  - intros Hin. apply mem_In in Hin. now rewrite Hin.
  - intros Htracked Hout.
    assert (Hm : mem t (target_selection env) = false)
      by (apply not_true_iff_false; now rewrite mem_In).
    rewrite Hm. cbn [negb].
    destruct (Qeq_dec (weights t) 0) as [Hz | Hnz].
    + destruct (mem t (current_holdings self) && (true && invested env t));
        [reflexivity | exact Hz].
    + destruct (Htracked Hnz) as [-> Hheld].
      apply mem_In in Hheld. rewrite Hheld. reflexivity.
Qed.

(** *** Ranking and selection *)

Lemma firstn_map_length (n : nat) (l : list (Ticker * Q)) :
  (length (map fst (firstn n l)) <= n)%nat.
Proof. rewrite length_map, length_firstn. lia. Qed.

(** C5.  For every candidate list the scored candidates (momentum and
    average ready, price strictly above the average; score the rate of
    change, or 0 when that indicator is not ready) come out sorted by score,
    descending, equal scores in enumeration order.  After warm-up, in a
    bullish market with at least [min_etfs] scored candidates, the selection
    is the first [top_n = 3] of them; each selected symbol is set to
    [1 / |selection|] and no other symbol is set to a weight: an instruction
    for another symbol is a liquidation, and once the instructions are
    carried out every other symbol has weight 0, provided what had a weight
    before was marked invested and stored in [current_holdings]. *)
Theorem C5_rank_and_select (env : Env) (self : Algo) (etf_list : list Ticker) :
  let candidates := map (scored env) (filter (passes env) etf_list) in
  let ranked := get_etf_scores env etf_list in
  let selection :=
    map fst (firstn top_n (get_etf_scores env (primary_etfs env))) in
  let orders := fst (rebalance env self) in
  Permutation candidates ranked
  /\ StronglySorted (fun a b => snd b <= snd a) ranked
  /\ (forall k, filter (fun a => Qeq_bool (snd a) k) ranked
               = filter (fun a => Qeq_bool (snd a) k) candidates)
  /\ top_n = 3%nat
  /\ (length selection <= top_n)%nat
  /\ (is_warming_up env = false -> is_market_bullish env = true ->
      (min_etfs <= length (get_etf_scores env (primary_etfs env)))%nat ->
      current_holdings (snd (rebalance env self)) = selection
      /\ set_weight_orders orders
         = map (fun t => SetHoldings t
                           (1 / inject_Z (Z.of_nat (length selection))))
               selection
      /\ (forall o, In o orders -> ~ In (order_symbol o) selection ->
                    o = Liquidate (order_symbol o))
      /\ (forall weights t,
           (In t selection ->
            apply_orders orders weights t
              = 1 / inject_Z (Z.of_nat (length selection)))
           /\ ((~ weights t == 0 ->
                invested env t = true /\ In t (current_holdings self)) ->
               ~ In t selection -> apply_orders orders weights t == 0))).
Proof.
  intros candidates ranked selection orders.
  subst candidates ranked. unfold get_etf_scores at 1 2 3.
  rewrite collect_scores_filter.
  split; [apply sort_desc_perm|].
  split; [exact (sort_desc_sorted snd _)|].
  split; [exact (sort_desc_stable snd _)|].
  split; [reflexivity|].
  split; [apply firstn_map_length|].
  intros Hw Hb Hn. rewrite get_etf_scores_length in Hn.
  pose proof (target_selection_top env Hb Hn) as Hsel.
  fold selection in Hsel. clearbody selection. subst orders.
  assert (Hweight : target_weight (target_selection env)
                    = 1 / inject_Z (Z.of_nat (length selection)))
    by (rewrite Hsel; unfold target_weight; destruct selection; reflexivity).
  split; [|split; [|split]].
  - rewrite rebalance_after_warm_up by exact Hw.
    cbn [snd current_holdings]. exact Hsel.
  - rewrite set_weight_orders_rebalance by exact Hw.
    now rewrite Hweight, Hsel.
  - rewrite rebalance_after_warm_up by exact Hw. cbn [fst].
    intros o Hin Hout. apply in_app_or in Hin. destruct Hin as [Hin | Hin].
    + apply liquidations_In in Hin. destruct Hin as (t & -> & _). reflexivity.
    + apply set_positions_In in Hin. destruct Hin as (t & -> & Ht).
      rewrite Hsel in Ht. now elim Hout.
  - intros weights t.
    pose proof (@rebalance_weights env self weights t Hw) as Hafter.
    cbv zeta in Hafter. rewrite Hweight, Hsel in Hafter. exact Hafter.
Qed.

(** C10.  After warm-up a symbol is liquidated exactly when it is in the
    stored selection, not in the new one, and marked invested; a symbol is
    set to a weight exactly when it is in the new selection; so no symbol
    receives both instructions. *)
Theorem C10_liquidate_set_disjoint (env : Env) (self : Algo) :
  is_warming_up env = false ->
  let orders := fst (rebalance env self) in
  let target := current_holdings (snd (rebalance env self)) in
  target = target_selection env
  /\ (forall t, In (Liquidate t) orders <->
                In t (current_holdings self) /\ ~ In t target
                /\ invested env t = true)
  /\ (forall t, (exists w, In (SetHoldings t w) orders) <-> In t target)
  /\ (forall t w, In (Liquidate t) orders -> ~ In (SetHoldings t w) orders).
Proof.
  intros Hw orders target. subst orders target.
  rewrite rebalance_after_warm_up by exact Hw. cbn [fst snd current_holdings].
  set (sel := target_selection env).
  assert (Hliq : forall t,
    In (Liquidate t)
       (liquidations env (current_holdings self) sel
          ++ set_positions sel (target_weight sel)) <->
    In t (current_holdings self) /\ ~ In t sel /\ invested env t = true).
  { intros t. rewrite in_app_iff, liquidations_In, set_positions_In. split.
    - intros [(t' & [= <-] & H) | (t' & [=] & _)]. exact H.
    - intros H. left. now exists t. }
  assert (Hset : forall t w,
    In (SetHoldings t w)
       (liquidations env (current_holdings self) sel
          ++ set_positions sel (target_weight sel)) ->
    In t sel).
  { intros t w. rewrite in_app_iff, liquidations_In, set_positions_In.
    intros [(t' & [=] & _) | (t' & [= <- _] & H)]. exact H. }
  split; [reflexivity|]. split; [exact Hliq|]. split.
  - intros t. split.
    + intros (w & H). now apply Hset in H.
    + intros H. exists (target_weight sel).
      apply in_or_app. right. apply set_positions_In. now exists t.
  - intros t w Hl Hs. apply Hliq in Hl. apply Hset in Hs. tauto.
Qed.

(** A bullish January with XLK to sell: XLK is liquidated, the three best of
    the aggressive group are set to a third each. *)
Lemma C10_liquidate_set_disjoint_witness :
  is_warming_up (january 105) = false
  /\ In (Liquidate XLK) (fst (rebalance (january 105) (mkAlgo [XLK; XLV] None)))
  /\ ~ In (SetHoldings XLK (1 # 3))
         (fst (rebalance (january 105) (mkAlgo [XLK; XLV] None))).
Proof.
  split; [reflexivity|].
  destruct (C10_liquidate_set_disjoint (january 105) (mkAlgo [XLK; XLV] None)
              eq_refl) as (_ & _ & _ & Hdisj).
  assert (Hl : In (Liquidate XLK)
                  (fst (rebalance (january 105) (mkAlgo [XLK; XLV] None))))
    by (vm_compute; now left).
  split; [exact Hl | exact (Hdisj XLK (1 # 3) Hl)].
Defined.

(** The bullish January evaluated: the ranking keeps XLI before XLB and
    XLV before XLY, and the call sells XLK for the first three. *)
Example january_ranking :
  get_etf_scores (january 105) aggressive_etfs
    = [(XLI, 0.07); (XLB, 0.07); (XLV, 0.05); (XLY, 0.05)].
Proof. reflexivity. Qed.

Example january_rebalance :
  rebalance (january 105) (mkAlgo [XLK; XLV] None)
    = ([Liquidate XLK; SetHoldings XLI (1 # 3); SetHoldings XLB (1 # 3);
        SetHoldings XLV (1 # 3)],
       mkAlgo [XLI; XLB; XLV] (Some (mkDateTime 2010 1 4))).
Proof. vm_compute. reflexivity. Qed.

(** *** A second call *)

Lemma liquidations_held_selected (env : Env) (held target : list Ticker) :
  incl held target -> liquidations env held target = [].
Proof.
  induction held as [|h rest IH]; intros Hincl; [reflexivity|].
  cbn [liquidations].
  assert (Hm : mem h target = true)
    by (apply mem_In, Hincl; now left).
  rewrite Hm. cbn [negb andb]. apply IH.
  intros x Hx. apply Hincl. now right.
Qed.

(** A second call on the state the first one left, with the engine
    unchanged: the same state again, the same [set_holdings], nothing
    liquidated. *)
Lemma rebalance_twice (env : Env) (self : Algo) :
  let first := rebalance env self in
  let second := rebalance env (snd first) in
  snd second = snd first
  /\ set_weight_orders (fst second) = set_weight_orders (fst first)
  /\ fst second = set_weight_orders (fst second).
Proof.
  cbv zeta. destruct (is_warming_up env) eqn:Hw.
  - rewrite (rebalance_warming_up _ self Hw). cbn [snd fst].
    rewrite (rebalance_warming_up _ self Hw). now cbn.
  - rewrite !set_weight_orders_rebalance by exact Hw.
    rewrite (rebalance_after_warm_up _ self Hw). cbn [snd fst].
    rewrite rebalance_after_warm_up by exact Hw.
    cbn [snd fst current_holdings].
    rewrite liquidations_held_selected by apply incl_refl.
    repeat split.
Qed.

(** The indicators the call consults: the average of the benchmark, and for
    each candidate of the seasonal group its momentum, average and rate of
    change. *)
Definition consulted_ready (env : Env) : bool :=
  is_ready (sma (symbol_data env market_etf))
  && forallb (fun t =>
                let data := symbol_data env t in
                is_ready (momentum data) && is_ready (sma data)
                && is_ready (roc data))
             (primary_etfs env).

(** Warm-up over and no indicator ready yet. *)
Definition cold_start : Env :=
  mkEnv false (mkDateTime 2010 11 1)
        (fun _ => mkSymbolData (mkIndicator false 0) (mkIndicator false 0)
                               (mkIndicator false 0))
        (fun _ => 0) (fun _ => false).

Lemma cold_start_rebalance :
  rebalance cold_start initialize
    = ([SetHoldings TLT (1 # 2); SetHoldings SHY (1 # 2)],
       mkAlgo [TLT; SHY] (Some (mkDateTime 2010 11 1))).
Proof. vm_compute. reflexivity. Qed.

End SeasonalProps.

(** ** Both variants *)

(** The third claim as the specification words it: each variant does nothing
    while warm-up runs or a consulted indicator is not ready. *)
Definition noop_until_ready : Prop :=
  (forall (env : MSFT.Env) (self : MSFT.Algo),
     MSFTProps.gate_open env self = false ->
     MSFT.rebalance env self = ([], self))
  /\ (forall (env : Seasonal.Env) (self : Seasonal.Algo),
        Seasonal.is_warming_up env = true
        \/ SeasonalProps.consulted_ready env = false ->
        Seasonal.rebalance env self = ([], self)).

(** C3, as stated, fails for the multi-instrument variant: after warm-up,
    with no indicator ready, it sets the two safety funds to a half each and
    stores them as the selection. *)
Lemma C3_counterexample : ~ noop_until_ready.
Proof.
  intros [_ H].
  specialize (H SeasonalProps.cold_start Seasonal.initialize
                (or_intror eq_refl)).
  rewrite SeasonalProps.cold_start_rebalance in H. discriminate.
Qed.

(** C3, amended.  The single-instrument [rebalance] emits nothing and leaves
    the state as it was while warm-up runs, or one of the two averages or the
    RSI is not ready, or the momentum or the realised volatility is not
    available.  The multi-instrument [rebalance] does so while warm-up
    runs. *)
Theorem C3_gated_rebalance_noop :
  (forall (env : MSFT.Env) (self : MSFT.Algo),
     MSFT.is_warming_up env = true
     \/ MSFT.is_ready (MSFT.sma_200 env) = false
     \/ MSFT.is_ready (MSFT.sma_50 env) = false
     \/ MSFT.is_ready (MSFT.rsi_indicator env) = false
     \/ MSFT.get_12m_momentum self = None
     \/ MSFT.get_realized_vol self = None ->
     MSFT.rebalance env self = ([], self))
  /\ (forall (env : Seasonal.Env) (self : Seasonal.Algo),
        Seasonal.is_warming_up env = true ->
        Seasonal.rebalance env self = ([], self)).
Proof.
  split.
  - intros env self H. apply MSFTProps.rebalance_gate_closed.
    now apply MSFTProps.gate_open_false.
  - intros env self H. now apply SeasonalProps.rebalance_warming_up.
Qed.

(** C9.  A second multi-instrument call, on the selection the first call
    stored and an unchanged engine, emits the same [set_holdings]
    instructions and no liquidation, and stores the same selection.  A
    second single-instrument call emits nothing when the weight it finds is
    within 0.10 of the target; it finds such a weight after the first call's
    instruction, if any, was carried out exactly on a portfolio of positive
    value. *)
Theorem C9_second_call_idempotent :
  (forall (env : Seasonal.Env) (self : Seasonal.Algo),
     let first := Seasonal.rebalance env self in
     let second := Seasonal.rebalance env (snd first) in
     SeasonalProps.set_weight_orders (fst second)
       = SeasonalProps.set_weight_orders (fst first)
     /\ (forall t, ~ In (Seasonal.Liquidate t) (fst second))
     /\ Seasonal.current_holdings (snd second)
        = Seasonal.current_holdings (snd first))
  /\ (forall (env : MSFT.Env) (self : MSFT.Algo),
        let first := MSFT.rebalance env self in
        ((forall target,
            MSFTProps.decided_target env (snd first) = Some target ->
            (Rabs (MSFT.current_weight env - target) <= 0.10)%R) ->
         fst (MSFT.rebalance env (snd first)) = [])
        /\ ((MSFT.total_portfolio_value env > 0)%R ->
            fst (MSFT.rebalance (MSFTProps.filled env (fst first))
                                (snd first)) = [])).
Proof.
  split.
  - intros env self first second.
    destruct (SeasonalProps.rebalance_twice env self) as (Hs & Hw & Hl).
    fold first in Hs, Hw, Hl. fold second in Hs, Hw, Hl.
    split; [exact Hw|]. split; [|now rewrite Hs].
    intros t Hin. rewrite Hl in Hin.
    unfold SeasonalProps.set_weight_orders in Hin.
    apply filter_In in Hin. destruct Hin as [_ Hin]. discriminate.
  - intros env self first. subst first.
    rewrite MSFTProps.rebalance_state. split.
    + apply MSFTProps.rebalance_in_band.
    + apply MSFTProps.second_call_after_fill.
Qed.

(** * Beyond the claims *)

(** ** [MSFT/main.py]: a run of [on_data] *)

Module MSFTRuns.
Import PyReal PyRealFacts MSFT MSFTProps.
Local Open Scope R_scope.

(** The slices of a run, oldest first, handed to [on_data] one by one. *)
Definition ingest (slices : list Slice) (self : Algo) : Algo :=
  fold_left (fun s d => on_data d s) slices self.

(** The close of a slice that [on_data] keeps. *)
Definition kept_close (d : Slice) : option R :=
  match d with
  | Some (Some bar) => if leb (close bar) 0 then None else Some (close bar)
  | _ => None
  end.

(** The closes a run keeps, oldest first. *)
Fixpoint kept_closes (slices : list Slice) : list R :=
  match slices with
  | [] => []
  | d :: rest =>
      match kept_close d with
      | Some c => c :: kept_closes rest
      | None => kept_closes rest
      end
  end.

(** The simple returns between consecutive closes, oldest first. *)
Fixpoint simple_returns (closes : list R) : list R :=
  match closes with
  | a :: (b :: _) as rest => (b / a - 1) :: simple_returns rest
  | _ => []
  end.

(** The state a run leaves in windows of capacity [n] and [m]. *)
Definition after_closes (n m : nat) (closes : list R) : Algo :=
  mkAlgo (mkWindow n (firstn n (rev closes)))
         (mkWindow m (firstn m (rev (simple_returns closes))))
         (hd_error (rev closes)).

Lemma firstn_cons_firstn (A : Type) (n : nat) (x : A) (l : list A) :
  firstn n (x :: firstn n l) = firstn n (x :: l).
Proof.
  destruct n as [|n]; [reflexivity|]. rewrite !firstn_cons. f_equal.
  rewrite firstn_firstn. f_equal. lia.
Qed.

Lemma kept_close_positive (d : Slice) (c : R) :
  kept_close d = Some c -> c > 0.
Proof.
  destruct d as [[bar|]|]; try discriminate. unfold kept_close.
  destruct (leb (close bar) 0) eqn:H; [discriminate|].
  intros [= <-]. now apply leb_false.
Qed.

Lemma kept_closes_app (l l' : list Slice) :
  kept_closes (l ++ l') = kept_closes l ++ kept_closes l'.
Proof.
  induction l as [|d l IH]; [reflexivity|]. cbn [app kept_closes].
  destruct (kept_close d); [cbn [app]; f_equal|]; exact IH.
Qed.

Lemma kept_closes_positive (slices : list Slice) :
  Forall (fun c => c > 0) (kept_closes slices).
Proof.
  induction slices as [|d l IH]; [constructor|]. cbn [kept_closes].
  destruct (kept_close d) eqn:H; [|exact IH].
  constructor; [now apply kept_close_positive with d | exact IH].
Qed.

Lemma simple_returns_snoc (closes : list R) (lp c : R) :
  simple_returns ((closes ++ [lp]) ++ [c])
    = simple_returns (closes ++ [lp]) ++ [c / lp - 1].
Proof.
  induction closes as [|a rest IH]; [reflexivity|].
  destruct rest as [|b rest]; [reflexivity|].
  change (simple_returns (((a :: b :: rest) ++ [lp]) ++ [c]))
    with ((b / a - 1) :: simple_returns (((b :: rest) ++ [lp]) ++ [c])).
  rewrite IH. reflexivity.
Qed.

Lemma simple_returns_length (closes : list R) :
  length (simple_returns closes) = (length closes - 1)%nat.
Proof.
  induction closes as [|a rest IH]; [reflexivity|].
  destruct rest as [|b rest]; [reflexivity|].
  change (simple_returns (a :: b :: rest))
    with ((b / a - 1) :: simple_returns (b :: rest)).
  cbn [length] in *. lia.
Qed.

Lemma on_data_dropped (d : Slice) (self : Algo) :
  kept_close d = None -> on_data d self = self.
Proof.
  destruct d as [[bar|]|]; try reflexivity. unfold kept_close, on_data.
  now destruct (leb (close bar) 0).
Qed.

Lemma on_data_kept (d : Slice) (c : R) (n m : nat) (closes : list R) :
  kept_close d = Some c ->
  Forall (fun c => c > 0) closes ->
  on_data d (after_closes n m closes) = after_closes n m (closes ++ [c]).
Proof.
  intros Hd Hpos. pose proof (kept_close_positive _ Hd) as Hc.
  destruct d as [[bar|]|]; try discriminate.
  assert (close bar = c) as Hbar
    by (unfold kept_close in Hd; destruct (leb (close bar) 0); congruence).
  unfold after_closes. rewrite rev_app_distr. cbn [rev app hd_error].
  destruct closes as [|a rest] using rev_ind.
  - cbn [rev simple_returns app firstn hd_error].
    replace (Some (Some bar)) with (Some (Some (mkBar c)))
      by (now destruct bar; cbn in Hbar; subst).
    rewrite on_data_first by exact Hc.
    unfold rw_add. cbn [rw_size rw_items].
    now rewrite firstn_nil, ?firstn_cons_firstn.
  - clear IHrest. rewrite simple_returns_snoc, !rev_app_distr.
    cbn [rev app hd_error].
    replace (Some (Some bar)) with (Some (Some (mkBar c)))
      by (now destruct bar; cbn in Hbar; subst).
    apply Forall_app in Hpos. destruct Hpos as [_ Ha].
    apply Forall_inv in Ha.
    rewrite on_data_next by assumption.
    unfold rw_add. cbn [rw_size rw_items].
    now rewrite !firstn_cons_firstn.
Qed.

(** What a run from fresh windows leaves. *)
Lemma ingest_windows (n m : nat) (slices : list Slice) :
  ingest slices (mkAlgo (rw_new n) (rw_new m) None)
    = after_closes n m (kept_closes slices).
Proof.
  induction slices as [|d l IH] using rev_ind.
  - unfold after_closes. cbn. now rewrite !firstn_nil.
  - unfold ingest in *. rewrite fold_left_app. cbn [fold_left].
    rewrite IH, kept_closes_app. cbn [kept_closes].
    destruct (kept_close d) as [c|] eqn:Hd.
    + apply on_data_kept; [exact Hd | apply kept_closes_positive].
    + rewrite app_nil_r. now apply on_data_dropped.
Qed.

Lemma ingest_initialize (slices : list Slice) :
  ingest slices initialize
    = after_closes (lookback_12m + 1) 25 (kept_closes slices).
Proof. apply ingest_windows. Qed.

Lemma ingest_app (l l' : list Slice) (self : Algo) :
  ingest (l ++ l') self = ingest l' (ingest l self).
Proof. unfold ingest. apply fold_left_app. Qed.

Lemma price_count_of_run (slices : list Slice) :
  rw_count (price_history (ingest slices initialize))
    = Nat.min 253 (length (kept_closes slices)).
Proof.
  rewrite ingest_initialize. unfold after_closes, rw_count.
  cbn [price_history rw_items]. now rewrite length_firstn, length_rev.
Qed.

Lemma return_count_of_run (slices : list Slice) :
  rw_count (return_history (ingest slices initialize))
    = Nat.min 25 (length (kept_closes slices) - 1).
Proof.
  rewrite ingest_initialize. unfold after_closes, rw_count.
  cbn [return_history rw_items].
  now rewrite length_firstn, length_rev, simple_returns_length.
Qed.

(** X1.  After any run of [on_data] from [initialize] the price window
    holds the 253 most recent kept closes (those of slices with a bar whose
    close is positive), newest first, all of them positive, and
    [last_price] is the most recent kept close ([None] before the first). *)
Theorem X1_price_window_of_run (slices : list Slice) :
  let closes := kept_closes slices in
  let self := ingest slices initialize in
  rw_items (price_history self) = firstn 253 (rev closes)
  /\ rw_count (price_history self) = Nat.min 253 (length closes)
  /\ last_price self = hd_error (rev closes)
  /\ Forall (fun p => p > 0) (rw_items (price_history self)).
Proof.
  intros closes self. subst self.
  split; [|split; [apply price_count_of_run|]];
    rewrite ingest_initialize; unfold after_closes;
    cbn [price_history rw_items last_price]; [reflexivity|].
  split; [reflexivity|].
  apply Forall_forall. intros p Hin. apply firstn_subset in Hin.
  apply in_rev in Hin.
  pose proof (kept_closes_positive slices) as Hpos.
  rewrite Forall_forall in Hpos. now apply Hpos.
Qed.

(** X2.  After any run from [initialize] the return window holds the 25
    most recent simple returns [close / previous close - 1] between
    consecutive kept closes, newest first; the first kept close adds no
    return, and a dropped slice does not break the chain. *)
Theorem X2_return_window_of_run (slices : list Slice) :
  let closes := kept_closes slices in
  let self := ingest slices initialize in
  rw_items (return_history self) = firstn 25 (rev (simple_returns closes))
  /\ rw_count (return_history self) = Nat.min 25 (length closes - 1).
Proof.
  intros closes self. subst self. split; [|apply return_count_of_run].
  now rewrite ingest_initialize.
Qed.

(** X3.  After a run that kept at most 252 closes the momentum is not
    ready.  After one that kept more, it is the latest kept close over the
    kept close 252 bars before it, minus 1; that earlier close is positive,
    so the division is defined and the momentum is above -1. *)
Theorem X3_momentum_of_run (slices : list Slice) :
  let closes := kept_closes slices in
  let self := ingest slices initialize in
  ((length closes <= 252)%nat -> get_12m_momentum self = None)
  /\ ((253 <= length closes)%nat ->
      get_12m_momentum self
        = Some (nth 0 (rev closes) 0 / nth 252 (rev closes) 0 - 1)
      /\ nth 252 (rev closes) 0 > 0
      /\ nth 0 (rev closes) 0 / nth 252 (rev closes) 0 - 1 > -1).
Proof.
  intros closes self. subst self.
  pose proof (price_count_of_run slices) as Hc. fold closes in Hc.
  split.
  - intros H. apply get_12m_momentum_None. rewrite Hc.
    unfold lookback_12m. lia.
  - intros H.
    assert (Hpos : forall i, (i < 253)%nat -> nth i (rev closes) 0 > 0).
    { intros i Hi.
      pose proof (Forall_rev (kept_closes_positive slices)) as Hall.
      fold closes in Hall. rewrite Forall_nth in Hall.
      apply Hall. rewrite length_rev. lia. }
    split; [|split].
    + unfold get_12m_momentum. rewrite Hc.
      destruct (Nat.leb_spec (Nat.min 253 (length closes)) lookback_12m)
        as [Hle | _]; [unfold lookback_12m in Hle; lia|].
      rewrite ingest_initialize. fold closes. unfold after_closes, rw_at.
      cbn [price_history rw_items]. rewrite !nth_firstn.
      reflexivity.
    + apply Hpos. lia.
    + assert (0 < nth 0 (rev closes) 0 / nth 252 (rev closes) 0)
        by (apply Rdiv_lt_0_compat; apply Hpos; lia).
      lra.
Qed.

(** X4.  Along a run from [initialize] the realised volatility is ready
    exactly once 21 closes are kept, so it is ready whenever the momentum
    is; and a signal that is ready stays ready, whatever slices follow. *)
Theorem X4_ready_together (slices more : list Slice) :
  let self := ingest slices initialize in
  (get_realized_vol self = None <-> (length (kept_closes slices) < 21)%nat)
  /\ (get_12m_momentum self = None <->
      (length (kept_closes slices) < 253)%nat)
  /\ (get_12m_momentum self <> None -> get_realized_vol self <> None)
  /\ (get_12m_momentum self <> None ->
      get_12m_momentum (ingest more self) <> None)
  /\ (get_realized_vol self <> None ->
      get_realized_vol (ingest more self) <> None).
Proof.
  intros self. subst self.
  assert (Hv : forall l, get_realized_vol (ingest l initialize) = None <->
                         (length (kept_closes l) < 21)%nat).
  { intros l. rewrite get_realized_vol_None, return_count_of_run. lia. }
  assert (Hm : forall l, get_12m_momentum (ingest l initialize) = None <->
                         (length (kept_closes l) < 253)%nat).
  { intros l. rewrite get_12m_momentum_None, price_count_of_run.
    unfold lookback_12m. lia. }
  split; [apply Hv|]. split; [apply Hm|].
  rewrite <- !ingest_app, !Hv, !Hm, kept_closes_app, length_app.
  repeat split; lia.
Qed.

End MSFTRuns.

(** ** [MSFT/main.py]: the realised volatility and the sizer *)

Module MSFTSizer.
Import PyReal PyRealFacts MSFT MSFTProps.
Local Open Scope R_scope.

Lemma sum_repeat (r : R) (n : nat) : sum (repeat r n) = INR n * r.
Proof.
  induction n as [|n IH]; [simpl; lra|].
  cbn [repeat sum fold_right]. fold (sum (repeat r n)).
  rewrite IH, S_INR. lra.
Qed.

Lemma np_std_constant (r : R) (n : nat) :
  (0 < n)%nat -> np_std (repeat r n) = 0.
Proof.
  intros Hn. rewrite np_std_population.
  unfold population_std, sq_dev_sum, np_mean.
  rewrite sum_repeat, repeat_length.
  assert (HR : INR n <> 0) by (apply not_0_INR; lia).
  replace (INR n * r / INR n) with r by (field; exact HR).
  rewrite map_repeat. replace ((r - r) ^ 2) with 0 by ring.
  rewrite sum_repeat. replace (INR n * 0 / INR n) with 0 by (field; exact HR).
  apply sqrt_0.
Qed.

(** X5.  A realised volatility that is ready is never negative, and it is 0
    when the 20 most recent returns are all the same (a flat price gives 20
    returns of 0). *)
Theorem X5_realized_vol_nonneg (self : Algo) (v : R) :
  get_realized_vol self = Some v ->
  0 <= v
  /\ (forall r, Forall (eq r) (recent_returns self) -> v = 0).
Proof.
  intros Hv.
  assert (Hc : (20 <= rw_count (return_history self))%nat).
  { destruct (Nat.lt_ge_cases (rw_count (return_history self)) 20)
      as [Hlt | Hge]; [|exact Hge].
    apply get_realized_vol_None in Hlt. congruence. }
  rewrite (get_realized_vol_ready _ Hc) in Hv. injection Hv as <-.
  split.
  - apply Rmult_le_pos; apply sqrt_pos.
  - intros r Hall. apply Forall_eq_repeat in Hall.
    assert (Hlen : length (recent_returns self) = 20%nat).
    { unfold recent_returns. rewrite length_firstn.
      unfold rw_count in Hc. lia. }
    rewrite Hlen in Hall. rewrite <- np_std_population, Hall.
    rewrite np_std_constant by lia. ring.
Qed.

(** Twenty-six closes at 100: twenty-five returns of 0. *)
Definition flat_month : Algo :=
  mkAlgo (mkWindow 253 (repeat 100 26)) (mkWindow 25 (repeat 0 25))
         (Some 100).

Lemma X5_realized_vol_nonneg_witness :
  get_realized_vol flat_month
    = Some (population_std (recent_returns flat_month) * sqrt 252)
  /\ population_std (recent_returns flat_month) * sqrt 252 = 0.
Proof.
  assert (Hv : get_realized_vol flat_month
               = Some (population_std (recent_returns flat_month) * sqrt 252))
    by (apply get_realized_vol_ready; unfold rw_count; simpl; lia).
  split; [exact Hv|].
  destruct (X5_realized_vol_nonneg flat_month Hv) as [_ Hflat].
  apply (Hflat 0). unfold recent_returns, flat_month.
  cbn [return_history rw_items repeat firstn]. repeat constructor.
Defined.

(** The three values of the sizer, as functions of the volatility scalar
    and the RSI. *)
Lemma target_position_range (m v p s200 s50 rsi : R) :
  0 <= target_position m v p s200 s50 rsi <= 2.
Proof.
  pose proof (strong_tier_range
    (strong_trend_leverage * (target_vol / py_max v vol_floor)) rsi) as Hs.
  pose proof (clamp_range (lo := 0.9) (hi := 1.5)
    (base_leverage * (target_vol / py_max v vol_floor))) as Hmod.
  cbv zeta in Hs. unfold max_leverage in Hs.
  unfold target_position, max_leverage.
  destruct (leb m 0 || negb (gtb p s200)); [lra|].
  destruct (gtb p s50 && gtb s50 s200); lra.
Qed.

(** X6.  Whatever the engine and the state, [rebalance] emits nothing or a
    single [set_holdings], whose weight lies between 0 and 2 (never a short
    position, never more than the maximal leverage) and is more than 0.10
    away from the current weight. *)
Theorem X6_rebalance_emits_bounded (env : Env) (self : Algo) :
  fst (rebalance env self) = []
  \/ exists weight,
       fst (rebalance env self) = [SetHoldings weight]
       /\ 0 <= weight <= 2
       /\ decided_target env self = Some weight
       /\ Rabs (current_weight env - weight) > 0.10.
Proof.
  destruct (gate_open env self) eqn:H.
  - destruct (rebalance_gate_open _ _ H) as (target & Ht & ->). cbn [fst].
    destruct (execute_cases (current_weight env) target) as [[Hb ->] | [_ ->]];
      [right | now left].
    exists target. repeat split; try assumption;
      unfold decided_target in Ht;
      destruct (get_12m_momentum self); try discriminate;
      destruct (get_realized_vol self); try discriminate;
      injection Ht as <-; apply target_position_range.
  - left. now rewrite rebalance_gate_closed.
Qed.

(** The volatility scalar, and the value of the two trend tiers in terms
    of it. *)
Definition vol_scalar (realized_vol : R) : R :=
  target_vol / py_max realized_vol vol_floor.

Definition strong_value (scalar rsi_val : R) : R :=
  let position :=
    py_max 1.0 (py_min max_leverage (strong_trend_leverage * scalar)) in
  if ltb rsi_val 35 then py_min max_leverage (position * 1.15)
  else if gtb rsi_val 72 then py_max 1.0 (position * 0.92)
  else position.

Definition moderate_value (scalar : R) : R :=
  py_max 0.9 (py_min 1.5 (base_leverage * scalar)).

Lemma target_position_tiers (m v p s200 s50 rsi : R) :
  target_position m v p s200 s50 rsi =
  if leb m 0 || negb (gtb p s200) then 0
  else if gtb p s50 && gtb s50 s200 then strong_value (vol_scalar v) rsi
  else moderate_value (vol_scalar v).
Proof.
  unfold target_position.
  destruct (leb m 0 || negb (gtb p s200)); [lra|]. reflexivity.
Qed.

(** Opens every [max], [min] and comparison of the goal, innermost first. *)
Ltac open_clamps :=
  unfold strong_value, moderate_value, max_leverage, strong_trend_leverage,
    base_leverage, py_max, py_min, gtb, ltb;
  repeat match goal with
  | |- context [Rlt_dec ?a ?b] =>
      lazymatch a with context [Rlt_dec _ _] => fail | _ => idtac end;
      lazymatch b with context [Rlt_dec _ _] => fail | _ => idtac end;
      destruct (Rlt_dec a b)
  end;
  try lra.

Lemma vol_scalar_mono (v1 v2 : R) :
  v1 <= v2 -> vol_scalar v2 <= vol_scalar v1.
Proof.
  intros H. unfold vol_scalar, target_vol, vol_floor, Rdiv.
  apply Rmult_le_compat_l; [lra|].
  rewrite !py_max_Rmax. apply Rinv_le_contravar.
  - apply Rlt_le_trans with 0.12; [lra | apply Rmax_r].
  - apply Rle_max_compat_r. exact H.
Qed.

Lemma vol_scalar_floor (v : R) :
  v <= vol_floor -> vol_scalar v = vol_scalar vol_floor.
Proof.
  intros H. unfold vol_scalar. rewrite !py_max_Rmax.
  rewrite (Rmax_right v vol_floor) by exact H.
  now rewrite Rmax_left by lra.
Qed.

Lemma strong_value_mono (s1 s2 rsi : R) :
  s2 <= s1 -> strong_value s2 rsi <= strong_value s1 rsi.
Proof. intros H. open_clamps. Qed.

Lemma moderate_value_mono (s1 s2 : R) :
  s2 <= s1 -> moderate_value s2 <= moderate_value s1.
Proof. intros H. open_clamps. Qed.

Lemma moderate_le_strong (s rsi : R) :
  moderate_value s <= strong_value s rsi.
Proof. open_clamps. Qed.

Lemma strong_value_rsi_mono (s rsi1 rsi2 : R) :
  rsi1 <= rsi2 -> strong_value s rsi2 <= strong_value s rsi1.
Proof. intros H. open_clamps. Qed.

Lemma strong_value_nonneg (s rsi : R) : 0 <= strong_value s rsi.
Proof. open_clamps. Qed.

Lemma moderate_value_nonneg (s : R) : 0 <= moderate_value s.
Proof. open_clamps. Qed.

(** X7.  With everything else fixed, a higher realised volatility never
    gives a higher target, and below the floor of 0.12 the realised
    volatility does not matter at all. *)
Theorem X7_target_decreasing_in_vol (m v1 v2 p s200 s50 rsi : R) :
  v1 <= v2 ->
  target_position m v2 p s200 s50 rsi <= target_position m v1 p s200 s50 rsi
  /\ (v2 <= vol_floor ->
      target_position m v1 p s200 s50 rsi
        = target_position m v2 p s200 s50 rsi).
Proof.
  intros H. rewrite !target_position_tiers. split.
  - destruct (leb m 0 || negb (gtb p s200)); [lra|].
    destruct (gtb p s50 && gtb s50 s200).
    + apply strong_value_mono, vol_scalar_mono, H.
    + apply moderate_value_mono, vol_scalar_mono, H.
  - intros Hf.
    rewrite (vol_scalar_floor Hf), (vol_scalar_floor (v := v1)) by lra.
    reflexivity.
Qed.

Lemma X7_target_decreasing_in_vol_witness :
  0.15 <= 0.40
  /\ target_position 0.3 0.40 110 90 100 50
     <= target_position 0.3 0.15 110 90 100 50.
Proof.
  split; [lra|].
  apply (X7_target_decreasing_in_vol 0.3 (v1 := 0.15) (v2 := 0.40)
           110 90 100 50). lra.
Defined.

(** X8.  At the same realised volatility a strong-trend reading (positive
    momentum, price above both averages, 50-day average above the 200-day
    one) gets a target at least as large as any reading outside the strong
    tier, whatever the RSI on either side. *)
Theorem X8_strong_tier_dominates
    (v m p s200 s50 rsi m' p' s200' s50' rsi' : R) :
  m > 0 -> p > s200 -> p > s50 -> s50 > s200 ->
  ~ (p' > s50' /\ s50' > s200') ->
  target_position m' v p' s200' s50' rsi'
    <= target_position m v p s200 s50 rsi.
Proof.
  intros Hm H200 H50 Hgc Hns. rewrite !target_position_tiers.
  apply leb_false in Hm. apply gtb_true in H200, H50, Hgc.
  rewrite Hm, H200, H50, Hgc. cbn [negb orb andb].
  destruct (leb m' 0 || negb (gtb p' s200')); [apply strong_value_nonneg|].
  destruct (gtb p' s50') eqn:E1, (gtb s50' s200') eqn:E2; cbn [andb];
    try apply moderate_le_strong.
  apply gtb_true in E1, E2. tauto.
Qed.

Lemma X8_strong_tier_dominates_witness :
  target_position 0.3 0.25 95 90 100 20
    <= target_position 0.3 0.25 110 90 100 80.
Proof.
  apply X8_strong_tier_dominates; lra.
Defined.

(** X9.  With everything else fixed, a higher RSI never gives a higher
    target: the boost below 35 does not lower the position and the cut
    above 72 does not raise it. *)
Theorem X9_target_decreasing_in_rsi (m v p s200 s50 rsi1 rsi2 : R) :
  rsi1 <= rsi2 ->
  target_position m v p s200 s50 rsi2 <= target_position m v p s200 s50 rsi1.
Proof.
  intros H. rewrite !target_position_tiers.
  destruct (leb m 0 || negb (gtb p s200)); [lra|].
  destruct (gtb p s50 && gtb s50 s200); [|lra].
  now apply strong_value_rsi_mono.
Qed.

Lemma X9_target_decreasing_in_rsi_witness :
  30 <= 80
  /\ target_position 0.3 0.25 110 90 100 80
     <= target_position 0.3 0.25 110 90 100 30.
Proof.
  split; [lra|]. apply X9_target_decreasing_in_rsi. lra.
Defined.

(** X10.  Past the gate, with a momentum that is not positive or a price
    not above the 200-day average, the target is 0: a position worth more
    than a tenth of the portfolio (long or short) is closed with
    [set_holdings("MSFT", 0)], a smaller one is left as it is. *)
Theorem X10_exit_closes_or_keeps (env : Env) (self : Algo) (momentum : R) :
  gate_open env self = true ->
  get_12m_momentum self = Some momentum ->
  momentum <= 0
  \/ rw_at (price_history self) 0 <= current_value (sma_200 env) ->
  decided_target env self = Some 0
  /\ (Rabs (current_weight env) > 0.10 ->
      fst (rebalance env self) = [SetHoldings 0])
  /\ (Rabs (current_weight env) <= 0.10 -> fst (rebalance env self) = []).
Proof.
  intros Hg Hm Hexit.
  destruct (rebalance_gate_open _ _ Hg) as (target & Ht & ->). cbn [fst].
  assert (Hz : target = 0).
  { unfold decided_target in Ht. rewrite Hm in Ht.
    destruct (get_realized_vol self) as [v|]; [|discriminate].
    injection Ht as <-. rewrite target_position_tiers.
    assert (leb momentum 0
            || negb (gtb (rw_at (price_history self) 0)
                         (current_value (sma_200 env))) = true) as ->;
      [|reflexivity].
    apply orb_true_iff. destruct Hexit as [H | H];
      [left; now apply leb_true | right].
    apply negb_true_iff. now apply gtb_false. }
  subst target. split; [exact Ht|].
  replace (Rabs (current_weight env)) with (Rabs (current_weight env - 0))
    by (f_equal; lra).
  destruct (execute_cases (current_weight env) 0) as [[Hb ->] | [Hb ->]];
    split; intros; try reflexivity; lra.
Qed.

(** The price of [trending] (120) under a 200-day average of 130, and a
    position worth 5% of the portfolio. *)
Definition below_average : Env :=
  mkEnv false (mkIndicator true 130) (mkIndicator true 110)
        (mkIndicator true 50) 5000 100000.

Lemma X10_exit_closes_or_keeps_witness :
  gate_open below_average trending = true
  /\ current_weight below_average = 5000 / 100000
  /\ fst (rebalance below_average trending) = [].
Proof.
  assert (Hw : current_weight below_average = 5000 / 100000)
    by (apply current_weight_cases; simpl; lra).
  split; [reflexivity|]. split; [exact Hw|].
  destruct (X10_exit_closes_or_keeps below_average trending
              (momentum := rw_at (price_history trending) 0
                           / rw_at (price_history trending) lookback_12m - 1)
              eq_refl eq_refl) as (_ & _ & Hkeep).
  - right. cbv [trending price_history rw_at rw_items nth below_average
                sma_200 current_value]. lra.
  - apply Hkeep. rewrite Hw, Rabs_right; lra.
Defined.

End MSFTSizer.

(** ** [Seasonal/main.py]: what is selected *)

Module SeasonalSelection.
Import Seasonal SeasonalProps.
Local Open Scope Q_scope.

Lemma NoDup_firstn (A : Type) (n : nat) (l : list A) :
  NoDup l -> NoDup (firstn n l).
Proof.
  intros H. rewrite <- (firstn_skipn n l) in H.
  now apply NoDup_app_remove_r in H.
Qed.

Lemma In_firstn (A : Type) (n : nat) (l : list A) (x : A) :
  In x (firstn n l) -> In x l.
Proof.
  intros H. rewrite <- (firstn_skipn n l). apply in_or_app. now left.
Qed.

(** The ranked tickers are the candidates that pass, rearranged. *)
Lemma ranked_tickers (env : Env) (etf_list : list Ticker) :
  Permutation (filter (passes env) etf_list)
              (map fst (get_etf_scores env etf_list)).
Proof.
  unfold get_etf_scores. rewrite collect_scores_filter.
  rewrite <- (sort_desc_perm snd). rewrite map_map. cbn [scored fst].
  now rewrite map_id.
Qed.

Lemma ranked_entry (env : Env) (etf_list : list Ticker) (a : Ticker * Q) :
  In a (get_etf_scores env etf_list) <->
  a = scored env (fst a) /\ In (fst a) etf_list
  /\ passes env (fst a) = true.
Proof.
  unfold get_etf_scores. rewrite collect_scores_filter. split.
  - intros H. apply (Permutation_in _ (Permutation_sym (sort_desc_perm snd _)))
      in H.
    apply in_map_iff in H. destruct H as (t & <- & Ht).
    apply filter_In in Ht. cbn [scored fst]. tauto.
  - intros (E & Hin & Hp). apply (Permutation_in _ (sort_desc_perm snd _)).
    rewrite E. apply in_map. apply filter_In. tauto.
Qed.

Lemma NoDup_aggressive : NoDup aggressive_etfs.
Proof. repeat constructor; cbn; intuition discriminate. Qed.

Lemma NoDup_defensive : NoDup defensive_etfs.
Proof. repeat constructor; cbn; intuition discriminate. Qed.

Lemma NoDup_safety : NoDup safety_etfs.
Proof. repeat constructor; cbn; intuition discriminate. Qed.

Lemma NoDup_primary (env : Env) : NoDup (primary_etfs env).
Proof.
  unfold primary_etfs.
  destruct (is_winter_season env);
    [apply NoDup_aggressive | apply NoDup_defensive].
Qed.

(** The selection is the safety set, or the head of the ranking. *)
Lemma target_selection_cases (env : Env) :
  target_selection env = safety_etfs
  \/ (is_market_bullish env = true
      /\ (min_etfs <= length (get_etf_scores env (primary_etfs env)))%nat
      /\ target_selection env
         = map fst (firstn top_n (get_etf_scores env (primary_etfs env)))).
Proof.
  unfold target_selection, select_holdings.
  destruct (is_market_bullish env); [|now left].
  destruct (Nat.leb_spec min_etfs
              (length (get_etf_scores env (primary_etfs env))));
    [right | now left].
  now repeat split.
Qed.

Lemma target_selection_shape (env : Env) :
  target_selection env = safety_etfs
  \/ (NoDup (target_selection env)
      /\ (2 <= length (target_selection env) <= 3)%nat
      /\ forall t, In t (target_selection env) ->
                   In t (primary_etfs env) /\ passes env t = true).
Proof.
  destruct (target_selection_cases env) as [E | (_ & Hn & E)];
    [now left | right]. rewrite E. split; [|split].
  - rewrite <- firstn_map. apply NoDup_firstn.
    apply (Permutation_NoDup (ranked_tickers env (primary_etfs env))).
    apply NoDup_filter, NoDup_primary.
  - rewrite length_map, length_firstn.
    unfold min_etfs, top_n in *. lia.
  - intros t Ht. apply in_map_iff in Ht. destruct Ht as (a & <- & Ha).
    apply In_firstn in Ha. apply ranked_entry in Ha. tauto.
Qed.

Lemma target_selection_group (env : Env) (t : Ticker) :
  In t (target_selection env) ->
  In t safety_etfs \/ In t (primary_etfs env).
Proof.
  intros Ht. destruct (target_selection_shape env) as [E | (_ & _ & H)];
    [left; now rewrite <- E | right; now apply H].
Qed.

Lemma target_selection_length (env : Env) :
  (2 <= length (target_selection env) <= 3)%nat.
Proof.
  destruct (target_selection_shape env) as [-> | H]; [cbn; lia | tauto].
Qed.

Lemma market_not_selected (env : Env) : ~ In market_etf (target_selection env).
Proof.
  intros H. apply target_selection_group in H. unfold primary_etfs in H.
  destruct (is_winter_season env); cbn in H; intuition discriminate.
Qed.

(** X11.  After warm-up the selection [rebalance] stores has no duplicate,
    two or three tickers, and never the benchmark.  It is the safety set, or
    it is made of candidates of the season's group that are ready and trade
    above their average; so from May to October no aggressive fund is
    selected and from November to April no defensive one. *)
Theorem X11_selection_shape (env : Env) (self : Algo) :
  is_warming_up env = false ->
  let selection := current_holdings (snd (rebalance env self)) in
  NoDup selection
  /\ (2 <= length selection <= 3)%nat
  /\ ~ In market_etf selection
  /\ (selection = safety_etfs
      \/ forall t, In t selection ->
                   In t (primary_etfs env) /\ passes env t = true)
  /\ ((5 <= month (time env) <= 10)%nat ->
      forall t, In t selection -> ~ In t aggressive_etfs)
  /\ ((11 <= month (time env))%nat \/ (month (time env) <= 4)%nat ->
      forall t, In t selection -> ~ In t defensive_etfs).
Proof.
  intros Hw selection. subst selection.
  rewrite rebalance_after_warm_up by exact Hw. cbn [snd current_holdings].
  pose proof (target_selection_shape env) as Hin.
  pose proof (target_selection_group env) as Hgroup.
  split; [destruct Hin as [-> | H]; [apply NoDup_safety | tauto]|].
  split; [destruct Hin as [-> | H]; [cbn; lia | tauto]|].
  split.
  { intros H. apply Hgroup in H. unfold primary_etfs in H.
    destruct (is_winter_season env); cbn in H; intuition discriminate. }
  split; [destruct Hin as [E | H]; [now left | right; tauto]|].
  unfold primary_etfs, is_winter_season in Hgroup.
  split; intros Hm t Ht Hbad; apply Hgroup in Ht.
  - destruct (Nat.leb_spec 11 (month (time env))); [lia|].
    destruct (Nat.leb_spec (month (time env)) 4); [lia|]. cbn [orb] in Ht.
    cbn in Ht, Hbad. intuition (subst; discriminate).
  - assert ((11 <=? month (time env))%nat || (month (time env) <=? 4)%nat
            = true) as E
      by (apply orb_true_iff; rewrite !Nat.leb_le; exact Hm).
    rewrite E in Ht. cbn in Ht, Hbad. intuition (subst; discriminate).
Qed.

Lemma X11_selection_shape_witness :
  is_warming_up (january 105) = false
  /\ NoDup (current_holdings (snd (rebalance (january 105) initialize)))
  /\ ~ In XLK (current_holdings (snd (rebalance (january 105) initialize))).
Proof.
  split; [reflexivity|].
  destruct (X11_selection_shape (january 105) initialize eq_refl)
    as (Hnd & _ & _ & _ & _ & Hwinter).
  split; [exact Hnd|]. intros H.
  assert (Hm : (11 <= month (time (january 105)))%nat
               \/ (month (time (january 105)) <= 4)%nat)
    by (right; cbn; lia).
  apply (Hwinter Hm XLK H). cbn. tauto.
Defined.

Lemma sorted_app_desc (A : Type) (R : A -> A -> Prop) (l1 l2 : list A)
    (a b : A) :
  StronglySorted R (l1 ++ l2) -> In a l1 -> In b l2 -> R a b.
Proof.
  induction l1 as [|x l1 IH]; intros Hs Ha Hb; [destruct Ha|].
  cbn [app] in Hs. apply StronglySorted_inv in Hs. destruct Hs as [Hs Hx].
  destruct Ha as [-> | Ha]; [|now apply IH].
  rewrite Forall_forall in Hx. apply Hx. apply in_or_app. now right.
Qed.

(** X12.  When the selection comes from the ranking, no candidate left out
    outranks a selected one: a ready candidate of the season's group that
    trades above its average and is not selected has a score no higher than
    that of any selected ticker. *)
Theorem X12_selected_outrank (env : Env) (self : Algo) (t u : Ticker) :
  is_warming_up env = false ->
  let selection := current_holdings (snd (rebalance env self)) in
  selection <> safety_etfs ->
  In t selection ->
  In u (primary_etfs env) -> passes env u = true -> ~ In u selection ->
  score env u <= score env t.
Proof.
  intros Hw selection. subst selection.
  rewrite rebalance_after_warm_up by exact Hw. cbn [snd current_holdings].
  intros Hns Ht Hu Hp Hout.
  destruct (target_selection_cases env) as [E | (_ & _ & E)];
    [contradiction|].
  rewrite E in Ht, Hout.
  set (ranked := get_etf_scores env (primary_etfs env)) in *.
  apply in_map_iff in Ht. destruct Ht as (a & <- & Ha).
  assert (Hsa : a = scored env (fst a))
    by (apply In_firstn in Ha; now apply ranked_entry in Ha).
  assert (Hub : In (scored env u) (skipn top_n ranked)).
  { assert (Hin : In (scored env u) ranked)
      by (apply ranked_entry; cbn [scored fst]; tauto).
    rewrite <- (firstn_skipn top_n ranked) in Hin.
    apply in_app_or in Hin. destruct Hin as [Hin | Hin]; [|exact Hin].
    exfalso. apply Hout. apply in_map_iff. now exists (scored env u). }
  assert (Hsorted : StronglySorted (desc snd)
                      (firstn top_n ranked ++ skipn top_n ranked)).
  { rewrite firstn_skipn. unfold ranked, get_etf_scores.
    apply sort_desc_sorted. }
  pose proof (sorted_app_desc _ _ _ _ Hsorted Ha Hub) as Hle.
  unfold desc in Hle. rewrite Hsa in Hle. exact Hle.
Qed.

Lemma X12_selected_outrank_witness :
  score (january 105) XLY <= score (january 105) XLV.
Proof.
  apply (X12_selected_outrank (january 105) initialize XLV XLY eq_refl).
  - vm_compute. discriminate.
  - vm_compute. tauto.
  - vm_compute. tauto.
  - reflexivity.
  - vm_compute. intuition discriminate.
Defined.

(** The weight an instruction asks for: a liquidation asks for none. *)
Definition order_weight (o : Order) : Q :=
  match o with
  | Liquidate _ => 0
  | SetHoldings _ w => w
  end.

Definition total_weight (orders : list Order) : Q :=
  fold_right Qplus 0 (map order_weight orders).

Lemma total_weight_app (l1 l2 : list Order) :
  total_weight (l1 ++ l2) == total_weight l1 + total_weight l2.
Proof.
  unfold total_weight. induction l1 as [|o l1 IH]; cbn [app map fold_right].
  - now rewrite Qplus_0_l.
  - rewrite IH. apply Qplus_assoc.
Qed.

Lemma total_weight_liquidations (env : Env) (held target : list Ticker) :
  total_weight (liquidations env held target) == 0.
Proof.
  induction held as [|h rest IH]; [reflexivity|]. cbn [liquidations].
  destruct (negb (mem h target) && invested env h); [|exact IH].
  unfold total_weight in *. cbn [map fold_right order_weight].
  rewrite IH. reflexivity.
Qed.

Lemma set_positions_two_or_three (sel : list Ticker) :
  (2 <= length sel <= 3)%nat ->
  total_weight (set_positions sel (target_weight sel)) == 1
  /\ (target_weight sel = 1 # 2 \/ target_weight sel = 1 # 3).
Proof.
  intros H. destruct sel as [|a [|b [|c [|d rest]]]]; cbn [length] in H;
    try lia; split; try reflexivity; [now left | now right].
Qed.

(** X13.  After warm-up every call asks for a fully invested portfolio:
    it emits two or three [set_holdings], each at a half or a third, and
    the weights asked for add up to 1.  The weight 0 of an empty selection
    never occurs. *)
Theorem X13_weights_sum_to_one (env : Env) (self : Algo) :
  is_warming_up env = false ->
  let orders := fst (rebalance env self) in
  total_weight orders == 1
  /\ (2 <= length (set_weight_orders orders) <= 3)%nat
  /\ (forall t w, In (SetHoldings t w) orders -> w = 1 # 2 \/ w = 1 # 3).
Proof.
  intros Hw orders. subst orders.
  pose proof (target_selection_length env) as Hlen.
  destruct (set_positions_two_or_three _ Hlen) as [Hsum Hcases].
  rewrite set_weight_orders_rebalance by exact Hw.
  rewrite rebalance_after_warm_up by exact Hw. cbn [fst].
  split; [|split].
  - rewrite total_weight_app, total_weight_liquidations, Hsum. reflexivity.
  - unfold set_positions. now rewrite length_map.
  - intros t w Hin. apply in_app_or in Hin. destruct Hin as [Hin | Hin].
    + apply liquidations_In in Hin. destruct Hin as (t' & [=] & _).
    + apply set_positions_In in Hin. destruct Hin as (t' & [= _ ->] & _).
      exact Hcases.
Qed.

Lemma X13_weights_sum_to_one_witness :
  is_warming_up cold_start = false
  /\ total_weight (fst (rebalance cold_start initialize)) == 1.
Proof.
  split; [reflexivity|].
  apply (X13_weights_sum_to_one cold_start initialize eq_refl).
Defined.

(** *** A run of [rebalance] *)

(** The scheduled calls of a run, one engine reading per call, oldest
    first: all the instructions emitted, and the state left. *)
Fixpoint run (envs : list Env) (self : Algo) : list Order * Algo :=
  match envs with
  | [] => ([], self)
  | env :: rest =>
      let (orders, self') := rebalance env self in
      let (later, final) := run rest self' in
      (orders ++ later, final)
  end.

Lemma rebalance_avoids_market (env : Env) (self : Algo) :
  ~ In market_etf (current_holdings self) ->
  ~ In market_etf (current_holdings (snd (rebalance env self)))
  /\ forall o, In o (fst (rebalance env self)) -> order_symbol o <> market_etf.
Proof.
  intros Hinv. destruct (is_warming_up env) eqn:Hw.
  - rewrite (rebalance_warming_up _ self Hw). cbn [fst snd].
    split; [exact Hinv | intros o []].
  - rewrite (rebalance_after_warm_up _ self Hw).
    cbn [fst snd current_holdings].
    split; [apply market_not_selected|].
    intros o Hin E. apply in_app_or in Hin. destruct Hin as [Hin | Hin].
    + apply liquidations_In in Hin. destruct Hin as (t & -> & Hheld & _).
      cbn [order_symbol] in E. now subst t.
    + apply set_positions_In in Hin. destruct Hin as (t & -> & Hsel).
      cbn [order_symbol] in E. subst t.
      now apply (market_not_selected env).
Qed.

(** X14.  Over any run from [initialize], whatever the engine reads at
    each call, the benchmark SPY is never traded: no instruction names it
    and it is never in the stored selection. *)
Theorem X14_market_never_traded (envs : list Env) :
  (forall o, In o (fst (run envs initialize)) -> order_symbol o <> market_etf)
  /\ ~ In market_etf (current_holdings (snd (run envs initialize))).
Proof.
  assert (H : forall self, ~ In market_etf (current_holdings self) ->
    (forall o, In o (fst (run envs self)) -> order_symbol o <> market_etf)
    /\ ~ In market_etf (current_holdings (snd (run envs self)))).
  { induction envs as [|env rest IH]; intros self Hinv.
    - cbn [run fst snd]. split; [intros o [] | exact Hinv].
    - cbn [run].
      destruct (rebalance_avoids_market env self Hinv) as [Hnext Hnow].
      destruct (rebalance env self) as [orders self'].
      cbn [fst snd] in Hnext, Hnow.
      destruct (IH self' Hnext) as [Hlater Hfinal].
      destruct (run rest self') as [later final]. cbn [fst snd] in *.
      split; [|exact Hfinal].
      intros o Hin. apply in_app_or in Hin.
      destruct Hin as [Hin | Hin]; [now apply Hnow | now apply Hlater]. }
  apply H. intros [].
Qed.

(** The engine marks a symbol invested when it has a weight. *)
Definition with_invested (env : Env) (weights : Ticker -> Q) : Env :=
  mkEnv (is_warming_up env) (time env) (symbol_data env) (price env)
        (fun t => negb (Qeq_bool (weights t) 0)).

(** A run in which every instruction is carried out exactly before the next
    call: the state and the weights it leaves. *)
Fixpoint run_filled (envs : list Env) (self : Algo) (weights : Ticker -> Q)
    : Algo * (Ticker -> Q) :=
  match envs with
  | [] => (self, weights)
  | env :: rest =>
      let (orders, self') := rebalance (with_invested env weights) self in
      run_filled rest self' (apply_orders orders weights)
  end.

(** The portfolio is the stored selection, at equal weights. *)
Definition tracks (self : Algo) (weights : Ticker -> Q) : Prop :=
  forall t,
    (In t (current_holdings self) ->
     weights t = target_weight (current_holdings self))
    /\ (~ In t (current_holdings self) -> weights t == 0).

Lemma rebalance_tracks (env : Env) (self : Algo) (weights : Ticker -> Q) :
  tracks self weights ->
  tracks (snd (rebalance (with_invested env weights) self))
         (apply_orders (fst (rebalance (with_invested env weights) self))
                       weights).
Proof.
  intros Htr. set (env' := with_invested env weights).
  destruct (is_warming_up env') eqn:Hw.
  - rewrite (rebalance_warming_up _ self Hw). exact Htr.
  - intros t.
    destruct (@rebalance_weights env' self weights t Hw) as [Hsel Hout].
    rewrite (rebalance_after_warm_up _ self Hw) in *.
    cbn [fst snd current_holdings] in *.
    split; [exact Hsel|]. apply Hout. intros Hnz. split.
    + unfold env', with_invested. cbn [invested].
      apply negb_true_iff, not_true_iff_false.
      intros E. apply Qeq_bool_iff in E. contradiction.
    + destruct (mem t (current_holdings self)) eqn:Hm;
        [now apply mem_In|].
      exfalso. apply Hnz. apply Htr. rewrite <- mem_In. congruence.
Qed.

(** X15.  In a run from [initialize] with nothing held, if the engine
    carries out every instruction exactly before the next call and marks a
    symbol invested exactly when it has a weight, then after every call the
    portfolio is the stored selection: each stored ticker has the common
    weight and every other symbol has weight 0.  No position is left
    behind. *)
Theorem X15_portfolio_tracks_selection (envs : list Env) :
  let final := run_filled envs initialize (fun _ => 0) in
  forall t,
    (In t (current_holdings (fst final)) ->
     snd final t = target_weight (current_holdings (fst final)))
    /\ (~ In t (current_holdings (fst final)) -> snd final t == 0).
Proof.
  assert (H : forall self weights,
             tracks self weights ->
             tracks (fst (run_filled envs self weights))
                    (snd (run_filled envs self weights))).
  { induction envs as [|env rest IH]; intros self weights Htr;
      [exact Htr|].
    cbn [run_filled]. pose proof (rebalance_tracks env Htr) as Hnext.
    destruct (rebalance (with_invested env weights) self)
      as [orders self'].
    cbn [fst snd] in Hnext. now apply IH. }
  apply H. intros t. cbn. split; [intros [] | reflexivity].
Qed.

(** A bullish January call, then a bearish one, each carried out: the three
    sector funds are sold for the two safety funds. *)
Example two_calls_filled :
  let final := run_filled [january 105; january 99] initialize (fun _ => 0) in
  current_holdings (fst final) = [TLT; SHY]
  /\ snd final TLT = 1 # 2 /\ snd final SHY = 1 # 2 /\ snd final XLI = 0.
Proof. vm_compute. repeat split. Qed.

End SeasonalSelection.
